(** * GigaChat text generator plugin: token acquisition and completion flow

    A shallow embedding of [main.ts]: the settings record and its defaults,
    the logger, the OAuth token fetch ([getAccessToken]), the connectivity
    test ([testConnection], [testApiRequest]), the two completion calls of
    the modal ([generateText], [generateTextWithContext]), the click handler
    of the modal's generate button, and the settings load/save pair.

    The host (fetch, Math.random, the clock, the editor, the DOM widgets)
    is an explicit environment: oracles that answer the calls, and a trace
    of the effects the plugin performs.  One user action is run at a time:
    an [await] is the next step of the action.

    Values read from a parsed response are dynamic ([JsValue]); the settings
    and the strings taken from the widgets have their declared types.
    Strings are byte strings holding UTF-8, so [length] and [substring]
    count bytes where JavaScript counts UTF-16 code units; the plugin uses
    the two only in the text of log messages. *)

From Stdlib Require Import ZArith NArith Ascii String List Lia.
From stdpp Require Import base option list strings gmap fin_maps pretty.

Local Open Scope string_scope.
Local Open Scope list_scope.

(** ** JavaScript values *)

Module JS.

(** Numbers.  The plugin never computes with its numeric settings: it reads
    them and hands them on, so a number is kept as the literal it denotes;
    [NaN] and the two infinities are the numbers that are not finite. *)
Inductive JsNumber : Type :=
| Int (z : Z)
| Frac (num : Z) (den : positive)
| NaN
| Infinity (negative : bool).

#[warnings="-register-all"]
Inductive JsValue : Type :=
| JUndefined
| JNull
| JBool (b : bool)
| JNum (n : JsNumber)
| JStr (s : string)
| JArr (items : list JsValue)
| JObj (fields : gmap string JsValue).

(** [!v] is [negb (truthy v)]. *)
Definition truthy_number (n : JsNumber) : bool :=
  match n with
  | Int z => negb (Z.eqb z 0)
  | Frac num _ => negb (Z.eqb num 0)
  | NaN => false
  | Infinity _ => true
  end.

Definition truthy_string (s : string) : bool :=
  match s with
  | EmptyString => false
  | String _ _ => true
  end.

Definition truthy (v : JsValue) : bool :=
  match v with
  | JUndefined | JNull => false
  | JBool b => b
  | JNum n => truthy_number n
  | JStr s => truthy_string s
  | JArr _ | JObj _ => true
  end.

(** [JSON.stringify(v)], as the value the text it writes denotes: a number
    that is not finite is written as null, a property whose value is
    undefined is left out, an undefined element of an array is written as
    null; the rest is written as it is. *)
Fixpoint JSON_stringify (v : JsValue) : JsValue :=
  match v with
  | JNum NaN | JNum (Infinity _) => JNull
  | JArr items =>
      JArr (map (fun item => match item with
                             | JUndefined => JNull
                             | _ => JSON_stringify item
                             end) items)
  | JObj fields =>
      JObj (omap (fun value => match value with
                               | JUndefined => None
                               | _ => Some (JSON_stringify value)
                               end) fields)
  | _ => v
  end.

(** Errors.  [Error] is what the plugin throws itself with [new Error(..)];
    [TypeError] and [SyntaxError] are raised by the runtime (a property read
    on undefined or null, a rejected fetch, a body that is not JSON). *)
Inductive JsError : Type :=
| Error (message : string)
| TypeError (message : string)
| SyntaxError (message : string).

Definition message (e : JsError) : string :=
  match e with
  | Error m | TypeError m | SyntaxError m => m
  end.

(** How an evaluation ends: with a value, or with a thrown error. *)
Inductive Completion (A : Type) : Type :=
| Normal (a : A)
| Throw (e : JsError).
Arguments Normal {A} a.
Arguments Throw {A} e.

Inductive PropKey : Type :=
| Name (s : string)
| Index (i : nat).

Definition apostrophe : string := String "039"%char EmptyString.

Definition key_text (k : PropKey) : string :=
  match k with
  | Name s => s
  | Index i => pretty i
  end.

(** The message V8 gives to a property read on undefined or null. *)
Definition cannot_read (base : string) (k : PropKey) : JsError :=
  TypeError ("Cannot read properties of " +:+ base +:+ " (reading "
             +:+ apostrophe +:+ key_text k +:+ apostrophe +:+ ")").

Definition string_at (s : string) (i : nat) : JsValue :=
  match String.get i s with
  | Some c => JStr (String c EmptyString)
  | None => JUndefined
  end.

Definition length_of (n : nat) : JsValue := JNum (Int (Z.of_nat n)).

(** [v.k] and [v[i]]: own properties of objects, elements and [length] of
    arrays and strings; anything else that is not undefined or null reads as
    undefined. *)
Definition Get (v : JsValue) (k : PropKey) : Completion JsValue :=
  match v with
  | JUndefined => Throw (cannot_read "undefined" k)
  | JNull => Throw (cannot_read "null" k)
  | JObj o => Normal (default JUndefined (o !! key_text k))
  | JArr l =>
      match k with
      | Index i => Normal (default JUndefined (l !! i))
      | Name s => Normal (if String.eqb s "length" then length_of (length l) else JUndefined)
      end
  | JStr s =>
      match k with
      | Index i => Normal (string_at s i)
      | Name p => Normal (if String.eqb p "length" then length_of (String.length s) else JUndefined)
      end
  | JBool _ | JNum _ => Normal JUndefined
  end.

End JS.

Import JS.

(** ** The host: network, randomness, clock, widgets *)

(** A template literal whose holes are filled with run-time values: the
    literal parts are text, an interpolated value is kept as the value that
    is converted to text there.  [Pretty v] is [JSON.stringify(v, null, 2)]. *)
Inductive Piece : Type :=
| Lit (s : string)
| Interp (v : JsValue)
| Pretty (v : JsValue).

Definition Text : Type := list Piece.

(** The body handed to fetch: a string written out, or a JSON text, kept
    as the value it denotes. *)
Inductive Body : Type :=
| BodyText (s : string)
| BodyJson (v : JsValue).

Record Request : Type := {
  url : string;
  method : string;
  headers : list (string * Text);
  body : Body
}.

Record Response : Type := {
  status : N;
  statusText : string;
  json : Completion JsValue   (* what [response.json()] settles to *)
}.

(** [response.ok]: the status is in the range 200-299. *)
Definition ok (r : Response) : bool :=
  (200 <=? status r)%N && (status r <=? 299)%N.

Inductive FetchOutcome : Type :=
| Resolved (r : Response)
| Rejected (e : JsError).

Inductive LogType : Type := info | error | success.

Inductive Event : Type :=
| ConsoleLog (type : LogType) (message : Text)
| LogEntry (type : LogType) (logEntry : Text)   (* a div appended to the log container *)
| Fetch (req : Request)
| Notice (message : string)
| ButtonText (text : string)                    (* generateButton.setText *)
| ButtonDisabled (disabled : bool)              (* setAttr / removeAttribute 'disabled' *)
| StatusText (text : string)                    (* statusEl.setText *)
| StatusStyle (style : string)                  (* statusEl.setAttr('style', ..) *)
| ReplaceRange (text : JsValue)                 (* editor.replaceRange(text, editor.getCursor()) *)
| Close.                                        (* this.close() *)

(** The oracles answer the n-th fetch, the n-th random draw and the clock
    read after n effects. *)
Record Host : Type := {
  respond : nat -> Request -> FetchOutcome;
  random : nat -> N;
  clock : nat -> string
}.

Record State : Type := {
  trace : list Event;
  fetched : nat;
  drawn : nat
}.

Definition initial : State := {| trace := []; fetched := 0; drawn := 0 |}.

(** The requests sent and the texts inserted into the editor, as the
    trace records them. *)
Definition sent (events : list Event) : list Request :=
  omap (fun e => match e with Fetch req => Some req | _ => None end) events.

Definition inserted (events : list Event) : list JsValue :=
  omap (fun e => match e with ReplaceRange t => Some t | _ => None end) events.

Definition requests (st : State) : list Request := sent (trace st).

Definition insertions (st : State) : list JsValue := inserted (trace st).

(** ** Effects: host reader, state, exceptions *)

Definition M (A : Type) : Type := Host -> State -> Completion A * State.

#[global] Instance M_ret : MRet M := fun A a _ st => (Normal a, st).

#[global] Instance M_bind : MBind M := fun A B k m h st =>
  match m h st with
  | (Normal a, st') => k a h st'
  | (Throw e, st') => (Throw e, st')
  end.

Definition throw {A} (e : JsError) : M A := fun _ st => (Throw e, st).

Definition lift {A} (c : Completion A) : M A := fun _ st => (c, st).

Definition try_catch {A} (block : M A) (handler : JsError -> M A) : M A := fun h st =>
  match block h st with
  | (Normal a, st') => (Normal a, st')
  | (Throw e, st') => handler e h st'
  end.

(** [try { block } finally { final }] where [final] neither throws nor
    returns a value of its own. *)
Definition try_finally {A} (block : M A) (final : M unit) : M A := fun h st =>
  match block h st with
  | (c, st') =>
      match final h st' with
      | (Normal _, st'') => (c, st'')
      | (Throw e, st'') => (Throw e, st'')
      end
  end.

Definition emit (e : Event) : M unit := fun _ st =>
  (Normal tt, {| trace := trace st ++ [e]; fetched := fetched st; drawn := drawn st |}).

(** [Math.random() * 16 | 0]: an integer from 0 to 15. *)
Definition random16 : M N := fun h st =>
  (Normal (random h (drawn st) mod 16)%N,
   {| trace := trace st; fetched := fetched st; drawn := S (drawn st) |}).

(** [new Date().toLocaleTimeString()] *)
Definition toLocaleTimeString : M string := fun h st =>
  (Normal (clock h (length (trace st))), st).

(** [await fetch(url, init)] *)
Definition fetch (req : Request) : M Response := fun h st =>
  let st' := {| trace := trace st ++ [Fetch req]; fetched := S (fetched st); drawn := drawn st |} in
  match respond h (fetched st) req with
  | Resolved r => (Normal r, st')
  | Rejected e => (Throw e, st')
  end.

(** ** Settings *)

Record TextGeneratorSettings : Type := {
  apiKey : string;
  apiUrl : string;
  authUrl : string;
  clientId : string;
  scope : string;
  model : string;
  temperature : JsNumber;
  maxTokens : JsNumber;
  logMessages : bool
}.

Definition DEFAULT_SETTINGS : TextGeneratorSettings := {|
  apiKey := EmptyString;
  apiUrl := "https://gigachat.devices.sberbank.ru/api/v1";
  authUrl := "https://ngw.devices.sberbank.ru:9443/api/v2/oauth";
  clientId := "<base64>";
  scope := "GIGACHAT_API_PERS";
  model := "GigaChat";
  temperature := Frac 7 10;
  maxTokens := Int 1000;
  logMessages := true
|}.

(** ** The plugin object *)

(** [logContainer] is true while the settings tab has attached its log
    panel, false while the field is null. *)
Record TextGeneratorPlugin : Type := {
  settings : TextGeneratorSettings;
  logContainer : bool
}.

Definition dquote : string := String "034"%char EmptyString.
Definition newline : string := String "010"%char EmptyString.

Definition logMessage (this : TextGeneratorPlugin) (message : Text) (type : LogType) : M unit :=
  if negb (logMessages (settings this)) then mret tt
  else
    timestamp ← toLocaleTimeString;
    let logEntry := ([Lit "["; Lit timestamp; Lit "] "] ++ message) in
    emit (ConsoleLog type message);;
    if logContainer this then emit (LogEntry type logEntry) else mret tt.

(** [v.toString(16)] for the one-digit values the generator produces. *)
Definition toString16 (v : N) : string :=
  match String.get (N.to_nat v) "0123456789abcdef" with
  | Some c => String c EmptyString
  | None => EmptyString
  end.

(** [template.replace(/[xy]/g, c => ..)]: every x and y is replaced by a
    fresh hexadecimal digit, every other character is kept. *)
Fixpoint replace_xy (template : string) : M string :=
  match template with
  | EmptyString => mret EmptyString
  | String c rest =>
      if (Ascii.eqb c "x" || Ascii.eqb c "y")%bool then
        r ← random16;
        let v := if Ascii.eqb c "x" then r else N.lor (N.land r 3) 8 in
        rest' ← replace_xy rest;
        mret (toString16 v +:+ rest')
      else
        rest' ← replace_xy rest;
        mret (String c rest')
  end.

Definition generateUuid : M string :=
  replace_xy "xxxxxxxx-xxxx-4xxx-yxxx-xxxxxxxxxxxx".

(** The OAuth request of [getAccessToken]. *)
Definition tokenRequest (s : TextGeneratorSettings) (rqUID : string) : Request := {|
  url := authUrl s;
  method := "POST";
  headers := [("Content-Type", [Lit "application/x-www-form-urlencoded"]);
              ("Authorization", [Lit ("Basic " +:+ clientId s)]);
              ("RqUID", [Lit rqUID])];
  body := BodyText ("scope=" +:+ scope s)
|}.

Definition getAccessToken (this : TextGeneratorPlugin) : M JsValue :=
  try_catch
    (logMessage this [Lit "Отправка запроса для получения access token..."] info;;
     rqUID ← generateUuid;
     authResponse ← fetch (tokenRequest (settings this) rqUID);
     if negb (ok authResponse) then
       throw (Error ("HTTP " +:+ pretty (status authResponse) +:+ ": " +:+ statusText authResponse))
     else
       authData ← lift (json authResponse);
       expires_in ← lift (Get authData (Name "expires_in"));
       logMessage this [Lit "Access token получен, срок действия: "; Interp expires_in; Lit " сек"] info;;
       lift (Get authData (Name "access_token")))
    (fun err =>
       logMessage this [Lit ("Ошибка получения access token: " +:+ message err)] error;;
       throw err).

(** The request body of a chat completion. *)
Definition completionBody (model : string) (content : string) (temperature max_tokens : JsNumber) : JsValue :=
  JObj (<["model" := JStr model]>
       (<["messages" := JArr [JObj (<["role" := JStr "user"]> (<["content" := JStr content]> ∅))]]>
       (<["temperature" := JNum temperature]>
       (<["max_tokens" := JNum max_tokens]> ∅)))).

Definition completionRequest (apiUrl : string) (accessToken : JsValue) (payload : JsValue) : Request := {|
  url := apiUrl +:+ "/chat/completions";
  method := "POST";
  headers := [("Content-Type", [Lit "application/json"]);
              ("Authorization", [Lit "Bearer "; Interp accessToken])];
  body := BodyJson (JSON_stringify payload)
|}.

Definition testPrompt : string :=
  "Ответь одним словом: " +:+ dquote +:+ "работает" +:+ dquote.

Definition testApiRequest (this : TextGeneratorPlugin) (accessToken : JsValue) : M bool :=
  try_catch
    (logMessage this [Lit "Отправка тестового запроса к GigaChat API..."] info;;
     response ← fetch (completionRequest (apiUrl (settings this)) accessToken
                         (completionBody (model (settings this)) testPrompt (Frac 1 10) (Int 10)));
     if negb (ok response) then
       throw (Error ("HTTP " +:+ pretty (status response) +:+ ": " +:+ statusText response))
     else
       data ← lift (json response);
       logMessage this [Lit "Тестовый ответ получен: "; Pretty data] info;;
       mret true)
    (fun err =>
       logMessage this [Lit ("Ошибка тестового запроса: " +:+ message err)] error;;
       mret false).

Definition testConnection (this : TextGeneratorPlugin) : M bool :=
  logMessage this [Lit "Начинаем тестирование подключения к GigaChat..."] info;;
  if negb (truthy_string (apiKey (settings this))) then
    logMessage this [Lit "❌ API ключ не установлен"] error;;
    mret false
  else
    try_catch
      (logMessage this [Lit "Получение access token..."] info;;
       accessToken ← getAccessToken this;
       if negb (truthy accessToken) then
         logMessage this [Lit "❌ Не удалось получить access token"] error;;
         mret false
       else
         logMessage this [Lit "✅ Access token успешно получен"] success;;
         logMessage this [Lit "Тестирование отправки сообщения..."] info;;
         testResponse ← testApiRequest this accessToken;
         if testResponse : bool then
           logMessage this [Lit "✅ Подключение к GigaChat API успешно установлено!"] success;;
           mret true
         else
           logMessage this [Lit "❌ Не удалось отправить тестовый запрос"] error;;
           mret false)
      (fun err =>
         logMessage this [Lit ("❌ Ошибка при тестировании: " +:+ message err)] error;;
         mret false).

(** ** The generation modal *)

Module Modal.

(** [settings] is the reference the modal received when it was built;
    [plugin] is the plugin object, which holds its own [settings] field. *)
Record TextGenerationModal : Type := {
  settings : TextGeneratorSettings;
  plugin : TextGeneratorPlugin;
  initialText : string
}.

Definition contextSeparator : string :=
  newline +:+ newline +:+ "Контекст:" +:+ newline +:+ dquote.

(** [data.choices[0].message.content] *)
Definition firstChoiceContent (data : JsValue) : Completion JsValue :=
  match Get data (Name "choices") with
  | Throw e => Throw e
  | Normal choices =>
      match Get choices (Index 0) with
      | Throw e => Throw e
      | Normal choice =>
          match Get choice (Name "message") with
          | Throw e => Throw e
          | Normal msg => Get msg (Name "content")
          end
      end
  end.

Definition generateText (this : TextGenerationModal) (prompt : string) (accessToken : JsValue) : M JsValue :=
  logMessage (plugin this)
    [Lit "Генерация текста для запроса: "; Lit (String.substring 0 50 prompt); Lit "..."] info;;
  response ← fetch (completionRequest (apiUrl (settings this)) accessToken
                      (completionBody (model (settings this)) prompt
                         (temperature (settings this)) (maxTokens (settings this))));
  if negb (ok response) then
    throw (Error ("API error: " +:+ pretty (status response) +:+ " " +:+ statusText response))
  else
    data ← lift (json response);
    generatedText ← lift (firstChoiceContent data);
    len ← lift (Get generatedText (Name "length"));
    logMessage (plugin this) [Lit "Сгенерировано "; Interp len; Lit " символов"] success;;
    mret generatedText.

Definition generateTextWithContext (this : TextGenerationModal) (prompt context : string)
    (accessToken : JsValue) : M JsValue :=
  logMessage (plugin this)
    [Lit "Генерация с контекстом ("; Interp (length_of (String.length context)); Lit " символов): ";
     Lit (String.substring 0 50 prompt); Lit "..."] info;;
  let fullPrompt := prompt +:+ contextSeparator +:+ context +:+ dquote in
  response ← fetch (completionRequest (apiUrl (settings this)) accessToken
                      (completionBody (model (settings this)) fullPrompt
                         (temperature (settings this)) (maxTokens (settings this))));
  if negb (ok response) then
    throw (Error ("API error: " +:+ pretty (status response) +:+ " " +:+ statusText response))
  else
    data ← lift (json response);
    generatedText ← lift (firstChoiceContent data);
    len ← lift (Get generatedText (Name "length"));
    logMessage (plugin this) [Lit "Сгенерировано "; Interp len; Lit " символов с контекстом"] success;;
    mret generatedText.

Definition statusBusy : string :=
  "background-color: var(--background-modifier-hover); color: var(--text-normal);".
Definition statusFailed : string :=
  "background-color: var(--background-modifier-error); color: var(--text-on-accent);".

(** The try block of the click handler. *)
Definition generateAndInsert (this : TextGenerationModal) (prompt : string) : M unit :=
  accessToken ← getAccessToken (plugin this);
  generatedText ←
    (if truthy_string (initialText this)
     then generateTextWithContext this prompt (initialText this) accessToken
     else generateText this prompt accessToken);
  emit (ReplaceRange generatedText);;
  emit Close.

(** [generateButton.onclick], with [promptInput.value] as argument. *)
Definition onGenerateClick (this : TextGenerationModal) (promptInput : string) : M unit :=
  if negb (truthy_string (apiKey (settings this))) then
    emit (Notice "Пожалуйста, установите ваш GigaChat API ключ в настройках")
  else
    let prompt := promptInput in
    if negb (truthy_string prompt) then
      emit (Notice "Пожалуйста, введите запрос")
    else
      emit (ButtonText "Генерация...");;
      emit (ButtonDisabled true);;
      emit (StatusText "Отправка запроса к GigaChat...");;
      emit (StatusStyle statusBusy);;
      try_finally
        (try_catch
           (generateAndInsert this prompt)
           (fun err =>
              emit (StatusText ("Ошибка: " +:+ message err));;
              emit (StatusStyle statusFailed);;
              logMessage (plugin this) [Lit ("Ошибка генерации: " +:+ message err)] error))
        (emit (ButtonText "Сгенерировать");;
         emit (ButtonDisabled false)).

End Modal.

(** ** Loading and saving the settings *)

Module Storage.

(** The object a settings record is at run time. *)
Definition settingsObject (s : TextGeneratorSettings) : gmap string JsValue :=
  <["apiKey" := JStr (apiKey s)]>
  (<["apiUrl" := JStr (apiUrl s)]>
  (<["authUrl" := JStr (authUrl s)]>
  (<["clientId" := JStr (clientId s)]>
  (<["scope" := JStr (scope s)]>
  (<["model" := JStr (model s)]>
  (<["temperature" := JNum (temperature s)]>
  (<["maxTokens" := JNum (maxTokens s)]>
  (<["logMessages" := JBool (logMessages s)]> ∅)))))))).

(** Reading an object at the declared type [TextGeneratorSettings]: every
    field is there and holds a value of its declared type. *)
Definition stringField (o : gmap string JsValue) (k : string) : option string :=
  match o !! k with Some (JStr s) => Some s | _ => None end.
Definition numberField (o : gmap string JsValue) (k : string) : option JsNumber :=
  match o !! k with Some (JNum n) => Some n | _ => None end.
Definition boolField (o : gmap string JsValue) (k : string) : option bool :=
  match o !! k with Some (JBool b) => Some b | _ => None end.

Definition asSettings (o : gmap string JsValue) : option TextGeneratorSettings :=
  apiKey ← stringField o "apiKey";
  apiUrl ← stringField o "apiUrl";
  authUrl ← stringField o "authUrl";
  clientId ← stringField o "clientId";
  scope ← stringField o "scope";
  model ← stringField o "model";
  temperature ← numberField o "temperature";
  maxTokens ← numberField o "maxTokens";
  logMessages ← boolField o "logMessages";
  Some {| apiKey := apiKey; apiUrl := apiUrl; authUrl := authUrl; clientId := clientId;
          scope := scope; model := model; temperature := temperature;
          maxTokens := maxTokens; logMessages := logMessages |}.

(** The own enumerable properties [Object.assign] copies from a source:
    the fields of an object, the elements of an array and the characters of
    a string under their indices, nothing for the other values. *)
Definition ownEnumerable (source : JsValue) : gmap string JsValue :=
  match source with
  | JObj o => o
  | JArr l => list_to_map (imap (fun i x => (pretty i, x)) l)
  | JStr s => list_to_map (imap (fun i c => (pretty i, JStr (String c EmptyString)))
                              (list_ascii_of_string s))
  | JUndefined | JNull | JBool _ | JNum _ => ∅
  end.

(** [Object.assign(target, ...sources)]: each source in turn writes each of
    its properties onto the target. *)
Definition Object_assign (target : gmap string JsValue) (sources : list JsValue)
    : gmap string JsValue :=
  foldl (fun t source => map_fold (fun k v acc => <[k := v]> acc) t (ownEnumerable source))
        target sources.

(** The plugin object as far as its settings go: the [settings] field and
    the data the host keeps for the plugin. *)
Record PluginData : Type := {
  settings : gmap string JsValue;   (* this.settings *)
  data : JsValue                    (* the host's persisted data *)
}.

(** Modelled from the spec: the settings-storage collaborator of the host
    ([loadData] and [saveData] of the plugin base class, which are not part
    of [main.ts]), which "exposes: load persisted configuration object, save
    configuration object".  [data] is null until something was saved, then
    the object last saved. *)
Definition loadData (st : PluginData) : JsValue := data st.

Definition saveData (v : JsValue) (st : PluginData) : PluginData :=
  {| settings := settings st; data := v |}.

Definition loadSettings (st : PluginData) : PluginData :=
  {| settings := Object_assign ∅ [JObj (settingsObject DEFAULT_SETTINGS); loadData st];
     data := data st |}.

Definition saveSettings (st : PluginData) : PluginData :=
  saveData (JObj (settings st)) st.

End Storage.

(** ** The commands, the quick commands and the settings tab *)

Module Commands.

(** The constructor of the modal: [settings] and [plugin] are the
    references it is given, [this.initialText = initialText || ''] for the
    optional last argument. *)
Definition newModal (settings : TextGeneratorSettings) (plugin : TextGeneratorPlugin)
    (initialText : option string) : Modal.TextGenerationModal :=
  {| Modal.settings := settings;
     Modal.plugin := plugin;
     Modal.initialText :=
       match initialText with
       | Some t => if truthy_string t then t else EmptyString
       | None => EmptyString
       end |}.

(** The editor callback of the command generate-text: the modal it opens. *)
Definition generateText (this : TextGeneratorPlugin) : Modal.TextGenerationModal :=
  newModal (settings this) this None.


Record QuickCommand : Type := {
  text : string;
  prompt : string
}.

Definition quickCommandsList : list QuickCommand :=
  [ {| text := "📝 Улучшить"; prompt := "Улучши этот текст, сохраняя смысл:" |};
    {| text := "📋 Перефразировать"; prompt := "Перефразируй этот текст другими словами:" |};
    {| text := "🔍 Объяснить"; prompt := "Объясни этот текст простыми словами:" |};
    {| text := "📊 Суммаризировать"; prompt := "Суммаризируй этот текст кратко:" |} ].

(** The quick command buttons [onOpen] creates: none without initial text. *)
Definition quickCommands (this : Modal.TextGenerationModal) : list QuickCommand :=
  if truthy_string (Modal.initialText this) then quickCommandsList else [].

(** [btn.onclick] of a quick command: the new [promptInput.value]. *)
Definition quickCommandClick (this : Modal.TextGenerationModal) (command : QuickCommand) : string :=
  prompt command +:+ newline +:+ newline +:+ Modal.initialText this.

End Commands.

Module SettingTab.

(** What [display] and [hide] do to the plugin object: the log panel is
    attached while the tab is shown. *)
Definition display (plugin : TextGeneratorPlugin) : TextGeneratorPlugin :=
  {| settings := settings plugin; logContainer := true |}.

Definition hide (plugin : TextGeneratorPlugin) : TextGeneratorPlugin :=
  {| settings := settings plugin; logContainer := false |}.

(** [onClick] of the button that tests the connection.  [ButtonText] and
    [ButtonDisabled] record here [button.setButtonText] and
    [button.setDisabled] of that button. *)
Definition onTestClick (plugin : TextGeneratorPlugin) : M unit :=
  emit (ButtonText "Тестирование...");;
  emit (ButtonDisabled true);;
  success ← testConnection plugin;
  emit (ButtonText "Тестировать подключение");;
  emit (ButtonDisabled false);;
  if success : bool then
    emit (Notice "✅ Тестирование подключения прошло успешно!")
  else
    emit (Notice "❌ Тестирование подключения не удалось! Проверьте логи для деталей.").

(** An [onChange] handler: [this.plugin.settings.<key> = value], then
    [saveSettings]. *)
Definition change (key : string) (value : JsValue) (st : Storage.PluginData) : Storage.PluginData :=
  Storage.saveSettings
    {| Storage.settings := <[key := value]> (Storage.settings st);
       Storage.data := Storage.data st |}.

Definition onChange_apiKey (value : string) := change "apiKey" (JStr value).
Definition onChange_apiUrl (value : string) := change "apiUrl" (JStr value).
Definition onChange_authUrl (value : string) := change "authUrl" (JStr value).
Definition onChange_clientId (value : string) := change "clientId" (JStr value).
Definition onChange_scope (value : string) := change "scope" (JStr value).
Definition onChange_model (value : string) := change "model" (JStr value).
Definition onChange_temperature (value : JsNumber) := change "temperature" (JNum value).
(** [Number] is the conversion of the text typed into the field. *)
Definition onChange_maxTokens (Number : string -> JsNumber) (value : string) :=
  change "maxTokens" (JNum (Number value)).
Definition onChange_logMessages (value : bool) := change "logMessages" (JBool value).

End SettingTab.

(** ** Mocked hosts *)

Module Mock.

Definition respondWith (st : N) (text : string) (body : Completion JsValue) : Response :=
  {| status := st; statusText := text; json := body |}.

Definition tokenBody : JsValue :=
  JObj (<["access_token" := JStr "T"]> (<["expires_in" := JNum (Int 1800)]> ∅)).

Definition completionData (content : string) : JsValue :=
  JObj (<["choices" := JArr [JObj (<["message" := JObj (<["content" := JStr content]> ∅)]> ∅)]]> ∅).

Definition noJson : Completion JsValue := Throw (SyntaxError "Unexpected end of JSON input").

(** The first fetch is answered by [first], every later one by [second]. *)
Definition scripted (first second : FetchOutcome) : Host := {|
  respond := fun n _ => match n with 0 => first | S _ => second end;
  random := fun n => N.of_nat (7 * n + 3);
  clock := fun _ => "12:00:00"
|}.

Definition tokenOk : FetchOutcome := Resolved (respondWith 200 "OK" (Normal tokenBody)).
Definition generated : FetchOutcome := Resolved (respondWith 200 "OK" (Normal (completionData "Generated"))).
Definition unauthorized : FetchOutcome := Resolved (respondWith 401 "Unauthorized" noJson).
Definition serverError : FetchOutcome := Resolved (respondWith 500 "Internal Server Error" noJson).
Definition emptyObject : FetchOutcome := Resolved (respondWith 200 "OK" (Normal (JObj ∅))).
Definition emptyToken : FetchOutcome :=
  Resolved (respondWith 200 "OK"
              (Normal (JObj (<["access_token" := JStr EmptyString]>
                            (<["expires_in" := JNum (Int 1800)]> ∅))))).

Definition config : TextGeneratorSettings := {|
  apiKey := "key";
  apiUrl := "https://api.example/v1";
  authUrl := "https://auth.example/oauth";
  clientId := "Y2xpZW50";
  scope := "GIGACHAT_API_PERS";
  model := "GigaChat";
  temperature := Frac 7 10;
  maxTokens := Int 1000;
  logMessages := true
|}.

Definition plugin : TextGeneratorPlugin := {| settings := config; logContainer := true |}.

Definition modal (initialText : string) : Modal.TextGenerationModal :=
  {| Modal.settings := config; Modal.plugin := plugin; Modal.initialText := initialText |}.

End Mock.

(** Further answers and objects for the examples. *)
Module MockMore.


Definition failedToFetch : JsError := TypeError "Failed to fetch".



(** A plugin that agrees with [Mock.plugin] on [authUrl], [clientId] and
    [scope] only, and does not log. *)
Definition quietPlugin : TextGeneratorPlugin :=
  {| settings := {| apiKey := "other key"; apiUrl := "https://elsewhere.example";
                    authUrl := authUrl Mock.config; clientId := clientId Mock.config;
                    scope := scope Mock.config; model := "GigaChat-Pro";
                    temperature := Int 0; maxTokens := Int 1; logMessages := false |};
     logContainer := false |}.

(** The modal after a text that is no number was typed into the field of
    the maximum number of tokens: [Number] of such a text is NaN. *)
Definition unparsedLimit : TextGeneratorSettings := {|
  apiKey := apiKey Mock.config; apiUrl := apiUrl Mock.config;
  authUrl := authUrl Mock.config; clientId := clientId Mock.config;
  scope := scope Mock.config; model := model Mock.config;
  temperature := temperature Mock.config; maxTokens := NaN;
  logMessages := logMessages Mock.config
|}.

Definition unparsedLimitModal : Modal.TextGenerationModal :=
  {| Modal.settings := unparsedLimit;
     Modal.plugin := {| settings := unparsedLimit; logContainer := true |};
     Modal.initialText := EmptyString |}.

End MockMore.

(** ** Vocabulary of the statements *)

(** The state after some further events. *)
Definition after (st : State) (events : list Event) : State :=
  {| trace := trace st ++ events; fetched := fetched st; drawn := drawn st |}.

(** What [logMessage] writes. *)
Definition logged (this : TextGeneratorPlugin) (message : Text) (type : LogType)
    (h : Host) (st : State) : list Event :=
  if logMessages (settings this) then
    ConsoleLog type message ::
      (if logContainer this
       then [LogEntry type ([Lit "["; Lit (clock h (length (trace st))); Lit "] "] ++ message)]
       else [])
  else [].

(** Only the logger wrote these events. *)
Definition isLog (e : Event) : bool :=
  match e with
  | ConsoleLog _ _ | LogEntry _ _ => true
  | _ => false
  end.

Definition quiet (events : list Event) : Prop := forallb isLog events = true.

(** The events that leave the editor and the modal as they are: all but an
    insertion and the closing of the modal. *)
Definition keepsEditor (e : Event) : bool :=
  match e with
  | ReplaceRange _ | Close => false
  | _ => true
  end.

Definition editorUntouched (events : list Event) : Prop :=
  forallb keepsEditor events = true.

(** What [getAccessToken] makes of the answer to its request. *)
Definition tokenResult (answer : FetchOutcome) : Completion JsValue :=
  match answer with
  | Rejected e => Throw e
  | Resolved r =>
      if ok r then
        match json r with
        | Throw e => Throw e
        | Normal authData =>
            match Get authData (Name "expires_in") with
            | Throw e => Throw e
            | Normal _ => Get authData (Name "access_token")
            end
        end
      else Throw (Error ("HTTP " +:+ pretty (status r) +:+ ": " +:+ statusText r))
  end.

(** What a completion call makes of the answer to its request. *)
Definition completionResult (answer : FetchOutcome) : Completion JsValue :=
  match answer with
  | Rejected e => Throw e
  | Resolved r =>
      if ok r then
        match json r with
        | Throw e => Throw e
        | Normal data =>
            match Modal.firstChoiceContent data with
            | Throw e => Throw e
            | Normal generatedText =>
                match Get generatedText (Name "length") with
                | Throw e => Throw e
                | Normal _ => Normal generatedText
                end
            end
        end
      else Throw (Error ("API error: " +:+ pretty (status r) +:+ " " +:+ statusText r))
  end.

(** The request of [generateText]. *)
Definition plainRequest (this : Modal.TextGenerationModal) (prompt : string) (accessToken : JsValue) : Request :=
  completionRequest (apiUrl (Modal.settings this)) accessToken
    (completionBody (model (Modal.settings this)) prompt
       (temperature (Modal.settings this)) (maxTokens (Modal.settings this))).

(** The request of [generateTextWithContext]. *)
Definition contextRequest (this : Modal.TextGenerationModal) (prompt context : string)
    (accessToken : JsValue) : Request :=
  plainRequest this (prompt +:+ Modal.contextSeparator +:+ context +:+ dquote) accessToken.

(** The request of [testApiRequest]. *)
Definition testRequest (this : TextGeneratorPlugin) (accessToken : JsValue) : Request :=
  completionRequest (apiUrl (settings this)) accessToken
    (completionBody (model (settings this)) testPrompt (Frac 1 10) (Int 10)).

(** What [testApiRequest] makes of the answer to its request. *)
Definition testResult (answer : FetchOutcome) : bool :=
  match answer with
  | Rejected _ => false
  | Resolved r => ok r && match json r with Normal _ => true | Throw _ => false end
  end.

(** The completion request the click handler sends once it holds a token. *)
Definition generationRequest (this : Modal.TextGenerationModal) (prompt : string)
    (accessToken : JsValue) : Request :=
  if truthy_string (Modal.initialText this)
  then contextRequest this prompt (Modal.initialText this) accessToken
  else plainRequest this prompt accessToken.

(** The completion call the handler chooses. *)
Definition generation (this : Modal.TextGenerationModal) (prompt : string)
    (accessToken : JsValue) : M JsValue :=
  if truthy_string (Modal.initialText this)
  then Modal.generateTextWithContext this prompt (Modal.initialText this) accessToken
  else Modal.generateText this prompt accessToken.

(** What the two calls of the click handler come to, given the answers to
    the token request and to the completion request. *)
Definition generationOutcome (this : Modal.TextGenerationModal) (prompt : string)
    (tokenAnswer : FetchOutcome) (completionAnswer : JsValue -> FetchOutcome) : Completion JsValue :=
  match tokenResult tokenAnswer with
  | Throw e => Throw e
  | Normal accessToken => completionResult (completionAnswer accessToken)
  end.

(** The widget updates the handler makes before it starts the generation. *)
Definition busy : list Event :=
  [ButtonText "Генерация..."; ButtonDisabled true;
   StatusText "Отправка запроса к GigaChat..."; StatusStyle Modal.statusBusy].


(** The [content] of each message of a JSON request body. *)
Definition messageContents (req : Request) : option (list JsValue) :=
  match body req with
  | BodyJson (JObj fields) =>
      match fields !! "messages" with
      | Some (JArr messages) =>
          Some (map (fun m => match m with
                              | JObj f => default JUndefined (f !! "content")
                              | _ => JUndefined
                              end) messages)
      | _ => None
      end
  | _ => None
  end.

(** The body is an object with exactly the fields [model], [messages],
    [temperature] and [max_tokens]; [messages] is a one-element list whose
    message has the role "user"; the other three fields hold the given
    values. *)
Definition carries (req : Request) (model : string) (temperature maxTokens : JsNumber) : Prop :=
  exists (fields message : gmap string JsValue),
    body req = BodyJson (JObj fields)
    /\ dom fields = {[ "model"; "messages"; "temperature"; "max_tokens" ]}
    /\ fields !! "model" = Some (JStr model)
    /\ fields !! "messages" = Some (JArr [JObj message])
    /\ message !! "role" = Some (JStr "user")
    /\ fields !! "temperature" = Some (JNum temperature)
    /\ fields !! "max_tokens" = Some (JNum maxTokens).

(** A number other than NaN and the two infinities. *)
Definition isFinite (n : JsNumber) : bool :=
  match n with
  | NaN | Infinity _ => false
  | Int _ | Frac _ _ => true
  end.

(** What a JSON text holds in the place of a number: the number when it is
    finite, null when it is not. *)
Definition written (n : JsNumber) : JsValue :=
  if isFinite n then JNum n else JNull.

(** [carries], with any values in the fields [temperature] and
    [max_tokens]. *)
Definition carriesValues (req : Request) (model : string) (temperature maxTokens : JsValue) : Prop :=
  exists (fields message : gmap string JsValue),
    body req = BodyJson (JObj fields)
    /\ dom fields = {[ "model"; "messages"; "temperature"; "max_tokens" ]}
    /\ fields !! "model" = Some (JStr model)
    /\ fields !! "messages" = Some (JArr [JObj message])
    /\ message !! "role" = Some (JStr "user")
    /\ fields !! "temperature" = Some temperature
    /\ fields !! "max_tokens" = Some maxTokens.


(** A string fits a template when it has the characters of the template,
    with a lower-case hexadecimal digit for every x and one of 8, 9, a, b for
    every y. *)
Definition isHex (c : ascii) : bool :=
  existsb (Ascii.eqb c) (list_ascii_of_string "0123456789abcdef").

Definition isVariant (c : ascii) : bool :=
  existsb (Ascii.eqb c) (list_ascii_of_string "89ab").

Fixpoint fits (template s : string) : bool :=
  match template, s with
  | EmptyString, EmptyString => true
  | String t template', String c s' =>
      (if Ascii.eqb t "x" then isHex c
       else if Ascii.eqb t "y" then isVariant c
       else Ascii.eqb t c)
      && fits template' s'
  | _, _ => false
  end.

(** The number of x and y in a template, and the string [replace_xy] makes
    of it from the draws that start at the given one. *)
Fixpoint xyCount (template : string) : nat :=
  match template with
  | EmptyString => 0
  | String c rest =>
      (if (Ascii.eqb c "x" || Ascii.eqb c "y")%bool then 1 else 0) + xyCount rest
  end.

Definition filledAt (template : string) (h : Host) (d : nat) : string :=
  match replace_xy template h {| trace := []; fetched := 0; drawn := d |} with
  | (Normal s, _) => s
  | (Throw _, _) => EmptyString
  end.

(** The shape of a version 4 UUID. *)
Definition isUuidV4 (s : string) : bool :=
  fits "xxxxxxxx-xxxx-4xxx-yxxx-xxxxxxxxxxxx" s.

(** The identifier [generateUuid] makes from the draws that start at the
    given one. *)
Definition uuidAt (h : Host) (d : nat) : string :=
  match generateUuid h {| trace := []; fetched := 0; drawn := d |} with
  | (Normal s, _) => s
  | (Throw _, _) => EmptyString
  end.

(** Events made of what the logger of a plugin wrote and of requests. *)
Inductive networkLog (this : TextGeneratorPlugin) (h : Host) : list Event -> Prop :=
| networkLog_nil : networkLog this h []
| networkLog_logged message type st events :
    networkLog this h events ->
    networkLog this h (logged this message type h st ++ events)
| networkLog_fetch req events :
    networkLog this h events ->
    networkLog this h (Fetch req :: events).

Definition isLogEntry (e : Event) : bool :=
  match e with
  | LogEntry _ _ => true
  | _ => false
  end.

(** The header of a request under a name. *)
Definition header (name : string) (req : Request) : option Text :=
  snd <$> find (fun entry => String.eqb (fst entry) name) (headers req).



(** ** Running the effects: basic facts *)

Lemma after_nil st : after st [] = st.
Proof. destruct st; unfold after; simpl. by rewrite app_nil_r. Qed.

Lemma fetched_after st evs : fetched (after st evs) = fetched st.
Proof. reflexivity. Qed.

Lemma trace_after st evs : trace (after st evs) = trace st ++ evs.
Proof. reflexivity. Qed.

Lemma after_after st evs1 evs2 : after (after st evs1) evs2 = after st (evs1 ++ evs2).
Proof. unfold after; simpl. by rewrite app_assoc. Qed.

Lemma run_bind {A B} (m : M A) (k : A -> M B) h st :
  (m ≫= k) h st =
  match m h st with
  | (Normal a, st') => k a h st'
  | (Throw e, st') => (Throw e, st')
  end.
Proof. reflexivity. Qed.

Lemma run_emit e h st : emit e h st = (Normal tt, after st [e]).
Proof. reflexivity. Qed.

Lemma run_logMessage this message type h st :
  logMessage this message type h st = (Normal tt, after st (logged this message type h st)).
Proof.
  unfold logMessage, logged.
  destruct (logMessages (settings this)); simpl.
  - destruct (logContainer this); simpl.
    + unfold mbind, M_bind, toLocaleTimeString, emit, after; simpl.
      by rewrite <- app_assoc.
    + reflexivity.
  - by rewrite after_nil.
Qed.

Lemma sent_app evs1 evs2 : sent (evs1 ++ evs2) = sent evs1 ++ sent evs2.
Proof. apply omap_app. Qed.

Lemma inserted_app evs1 evs2 : inserted (evs1 ++ evs2) = inserted evs1 ++ inserted evs2.
Proof. apply omap_app. Qed.

Lemma quiet_logged this message type h st : quiet (logged this message type h st).
Proof. unfold quiet, logged. by destruct (logMessages (settings this)), (logContainer this). Qed.

Lemma quiet_nil : quiet [].
Proof. reflexivity. Qed.

Lemma quiet_app evs1 evs2 : quiet evs1 -> quiet evs2 -> quiet (evs1 ++ evs2).
Proof. unfold quiet. rewrite forallb_app. by intros -> ->. Qed.

Lemma sent_quiet evs : quiet evs -> sent evs = [].
Proof.
  unfold quiet, sent. induction evs as [|e evs IH]; simpl; [done|].
  intros [He Hevs]%andb_prop. destruct e; try discriminate; simpl; auto.
Qed.

Lemma inserted_quiet evs : quiet evs -> inserted evs = [].
Proof.
  unfold quiet, inserted. induction evs as [|e evs IH]; simpl; [done|].
  intros [He Hevs]%andb_prop. destruct e; try discriminate; simpl; auto.
Qed.

Lemma sent_cons e evs :
  sent (e :: evs) = match e with Fetch req => [req] | _ => [] end ++ sent evs.
Proof. by destruct e. Qed.

Lemma inserted_cons e evs :
  inserted (e :: evs) = match e with ReplaceRange t => [t] | _ => [] end ++ inserted evs.
Proof. by destruct e. Qed.

Lemma sent_nil : sent [] = [].
Proof. reflexivity. Qed.

Lemma inserted_nil : inserted [] = [].
Proof. reflexivity. Qed.

Create HintDb quiet.
#[local] Hint Resolve quiet_logged quiet_nil quiet_app : quiet.

#[local] Arguments sent : simpl never.
#[local] Arguments inserted : simpl never.

(** Counts the requests and insertions of a trace written in segments. *)
Ltac tally :=
  repeat first
    [ rewrite sent_app | rewrite inserted_app
    | rewrite sent_cons | rewrite inserted_cons
    | rewrite sent_nil | rewrite inserted_nil
    | match goal with
      | H : quiet ?evs |- context [sent ?evs] => rewrite (sent_quiet evs H)
      | H : quiet ?evs |- context [inserted ?evs] => rewrite (inserted_quiet evs H)
      | |- context [sent (logged ?p ?m ?t ?h ?s)] =>
          rewrite (sent_quiet _ (quiet_logged p m t h s))
      | |- context [inserted (logged ?p ?m ?t ?h ?s)] =>
          rewrite (inserted_quiet _ (quiet_logged p m t h s))
      end ];
  simpl; rewrite ?app_nil_r.

(** [generateUuid] always returns, draws random numbers and does nothing
    else. *)
Lemma run_replace_xy template h st :
  exists s d, replace_xy template h st =
              (Normal s, {| trace := trace st; fetched := fetched st; drawn := d |}).
Proof.
  revert st. induction template as [|c rest IH]; intros st; simpl.
  - exists EmptyString, (drawn st). by destruct st.
  - destruct (Ascii.eqb c "x" || Ascii.eqb c "y")%bool.
    + rewrite run_bind. unfold random16 at 1.
      destruct (IH {| trace := trace st; fetched := fetched st; drawn := S (drawn st) |})
        as (s & d & Hrun).
      rewrite run_bind, Hrun. simpl. eauto.
    + destruct (IH st) as (s & d & Hrun).
      rewrite run_bind, Hrun. eauto.
Qed.

Lemma run_generateUuid h st :
  exists rqUID d, generateUuid h st =
                  (Normal rqUID, {| trace := trace st; fetched := fetched st; drawn := d |}).
Proof. apply run_replace_xy. Qed.

Lemma run_fetch req h st :
  fetch req h st =
  (match respond h (fetched st) req with Resolved r => Normal r | Rejected e => Throw e end,
   {| trace := trace st ++ [Fetch req]; fetched := S (fetched st); drawn := drawn st |}).
Proof. unfold fetch. by destruct (respond h (fetched st) req). Qed.

(** Closes a goal that asks for the events written after a request. *)
Ltac settle d :=
  eexists _, d; split;
  [unfold after, lift, throw; simpl; rewrite <- ?app_assoc; reflexivity
  |split; eauto with quiet].

(** [getAccessToken] sends exactly one request, the token request, and
    its result is decided by the answer to it. *)
Lemma run_getAccessToken this h st :
  exists rqUID before later d,
    getAccessToken this h st =
      (tokenResult (respond h (fetched st) (tokenRequest (settings this) rqUID)),
       {| trace := trace st ++ before ++ [Fetch (tokenRequest (settings this) rqUID)] ++ later;
          fetched := S (fetched st); drawn := d |})
    /\ quiet before /\ quiet later.
Proof.
  unfold getAccessToken, try_catch.
  rewrite run_bind, run_logMessage.
  set (before := logged this _ info h st).
  destruct (run_generateUuid h (after st before)) as (rqUID & d & Huuid).
  rewrite run_bind, Huuid, run_bind, run_fetch. simpl.
  exists rqUID, before.
  destruct (respond h (fetched st) (tokenRequest (settings this) rqUID)) as [r|e]; simpl.
  - destruct (ok r) eqn:Hok; simpl.
    + unfold lift at 1. rewrite run_bind. simpl.
      destruct (json r) as [authData|e]; simpl.
      * rewrite run_bind. unfold lift at 1.
        destruct authData; simpl; rewrite ?run_bind, run_logMessage; settle d.
      * rewrite run_bind, run_logMessage. settle d.
    + unfold throw at 1. rewrite run_bind, run_logMessage. settle d.
  - rewrite run_bind, run_logMessage. settle d.
Qed.


Ltac settle_here :=
  eexists; split;
  [unfold after, lift, throw; simpl; rewrite <- ?app_assoc; reflexivity
  |eauto with quiet].

Lemma run_completion (this : Modal.TextGenerationModal) (req : Request) (suffix : string) h st :
  exists later,
    (response ← fetch req;
     if negb (ok response) then
       throw (Error ("API error: " +:+ pretty (status response) +:+ " " +:+ statusText response))
     else
       data ← lift (json response);
       generatedText ← lift (Modal.firstChoiceContent data);
       len ← lift (Get generatedText (Name "length"));
       logMessage (Modal.plugin this) [Lit "Сгенерировано "; Interp len; Lit suffix] success;;
       mret generatedText) h st =
      (completionResult (respond h (fetched st) req),
       {| trace := trace st ++ [Fetch req] ++ later; fetched := S (fetched st); drawn := drawn st |})
    /\ quiet later.
Proof.
  rewrite run_bind, run_fetch. unfold completionResult.
  destruct (respond h (fetched st) req) as [r|e]; simpl.
  - destruct (ok r); simpl.
    + rewrite run_bind. unfold lift at 1.
      destruct (json r) as [data|e]; simpl; [|exists []; split; [reflexivity|apply quiet_nil]].
      rewrite run_bind. unfold lift at 1.
      destruct (Modal.firstChoiceContent data) as [generatedText|e]; simpl;
        [|exists []; split; [reflexivity|apply quiet_nil]].
      rewrite run_bind. unfold lift at 1.
      destruct (Get generatedText (Name "length")) as [len|e]; simpl;
        [|exists []; split; [reflexivity|apply quiet_nil]].
      rewrite run_bind, run_logMessage. settle_here.
    + exists []; split; [reflexivity|apply quiet_nil].
  - exists []; split; [reflexivity|apply quiet_nil].
Qed.

Lemma run_generateText this prompt accessToken h st :
  exists before later,
    Modal.generateText this prompt accessToken h st =
      (completionResult (respond h (fetched st) (plainRequest this prompt accessToken)),
       {| trace := trace st ++ before ++ [Fetch (plainRequest this prompt accessToken)] ++ later;
          fetched := S (fetched st); drawn := drawn st |})
    /\ quiet before /\ quiet later.
Proof.
  unfold Modal.generateText. rewrite run_bind, run_logMessage.
  set (before := logged _ _ info h st).
  destruct (run_completion this (plainRequest this prompt accessToken) " символов" h (after st before))
    as (later & Hrun & Hlater).
  exists before, later. unfold plainRequest in *. rewrite Hrun.
  split; [|split; eauto with quiet].
  unfold after; simpl. by rewrite <- app_assoc.
Qed.

Lemma run_generateTextWithContext this prompt context accessToken h st :
  exists before later,
    Modal.generateTextWithContext this prompt context accessToken h st =
      (completionResult (respond h (fetched st) (contextRequest this prompt context accessToken)),
       {| trace := trace st ++ before ++ [Fetch (contextRequest this prompt context accessToken)] ++ later;
          fetched := S (fetched st); drawn := drawn st |})
    /\ quiet before /\ quiet later.
Proof.
  unfold Modal.generateTextWithContext. rewrite run_bind, run_logMessage.
  set (before := logged _ _ info h st).
  destruct (run_completion this (contextRequest this prompt context accessToken)
              " символов с контекстом" h (after st before))
    as (later & Hrun & Hlater).
  exists before, later. unfold contextRequest, plainRequest in *. cbv zeta. rewrite Hrun.
  split; [|split; eauto with quiet].
  unfold after; simpl. by rewrite <- app_assoc.
Qed.




Lemma run_generateAndInsert this prompt h st :
  exists rqUID events st',
    let tokenAnswer := respond h (fetched st) (tokenRequest (settings (Modal.plugin this)) rqUID) in
    let outcome :=
      generationOutcome this prompt tokenAnswer
        (fun accessToken => respond h (S (fetched st)) (generationRequest this prompt accessToken)) in
    Modal.generateAndInsert this prompt h st =
      (match outcome with Normal _ => Normal tt | Throw e => Throw e end, st')
    /\ trace st' = trace st ++ events
    /\ sent events =
         tokenRequest (settings (Modal.plugin this)) rqUID ::
           match tokenResult tokenAnswer with
           | Normal accessToken => [generationRequest this prompt accessToken]
           | Throw _ => []
           end
    /\ inserted events = match outcome with Normal text => [text] | Throw _ => [] end.
Proof.
  unfold Modal.generateAndInsert, generationOutcome.
  destruct (run_getAccessToken (Modal.plugin this) h st)
    as (rqUID & before & later & d & Hrun & Hb & Hl).
  rewrite run_bind, Hrun. exists rqUID. cbv zeta.
  destruct (tokenResult _) as [accessToken|e].
  - assert (exists before' later' st',
      (if truthy_string (Modal.initialText this)
       then Modal.generateTextWithContext this prompt (Modal.initialText this) accessToken
       else Modal.generateText this prompt accessToken) h
        {| trace := trace st ++ before ++ [Fetch (tokenRequest (settings (Modal.plugin this)) rqUID)] ++ later;
           fetched := S (fetched st); drawn := d |} =
        (completionResult (respond h (S (fetched st)) (generationRequest this prompt accessToken)), st')
      /\ trace st' = trace st ++ before ++ [Fetch (tokenRequest (settings (Modal.plugin this)) rqUID)]
                       ++ later ++ before' ++ [Fetch (generationRequest this prompt accessToken)] ++ later'
      /\ quiet before' /\ quiet later') as (before' & later' & st' & Hgen & Htrace & Hb' & Hl').
    { unfold generationRequest. destruct (truthy_string (Modal.initialText this)).
      - match goal with |- context [Modal.generateTextWithContext _ _ _ _ h ?s] =>
          destruct (run_generateTextWithContext this prompt (Modal.initialText this) accessToken h s)
            as (before' & later' & Hgen & Hb' & Hl')
        end.
        exists before', later'. eexists; split; [exact Hgen|].
        simpl. rewrite <- !app_assoc. auto.
      - match goal with |- context [Modal.generateText _ _ _ h ?s] =>
          destruct (run_generateText this prompt accessToken h s)
            as (before' & later' & Hgen & Hb' & Hl')
        end.
        exists before', later'. eexists; split; [exact Hgen|].
        simpl. rewrite <- !app_assoc. auto. }
    rewrite run_bind, Hgen.
    destruct (completionResult _) as [generatedText|e].
    + rewrite run_bind, !run_emit. simpl.
      eexists _, _; split; [reflexivity|]; simpl.
      split; [rewrite Htrace, <- !app_assoc; reflexivity|].
      split; tally; reflexivity.
    + eexists _, _; split; [reflexivity|].
      split; [rewrite Htrace; reflexivity|].
      split; tally; reflexivity.
  - eexists _, _; split; [reflexivity|]; simpl.
    split; [reflexivity|].
    split; tally; reflexivity.
Qed.

(** One statement of a block: an emit or a log, then the rest. *)
Ltac step :=
  rewrite run_bind; first [rewrite run_emit | rewrite run_logMessage]; cbv beta iota.

(** The click handler never throws; past its two gates it runs the
    generation once, and its trace holds what the generation did, framed by
    widget updates. *)
Lemma run_onGenerateClick this prompt h st :
  truthy_string (apiKey (Modal.settings this)) = true ->
  truthy_string prompt = true ->
  exists rqUID events st',
    let tokenAnswer := respond h (fetched st) (tokenRequest (settings (Modal.plugin this)) rqUID) in
    let outcome :=
      generationOutcome this prompt tokenAnswer
        (fun accessToken => respond h (S (fetched st)) (generationRequest this prompt accessToken)) in
    Modal.onGenerateClick this prompt h st = (Normal tt, st')
    /\ trace st' = trace st ++ events
    /\ sent events =
         tokenRequest (settings (Modal.plugin this)) rqUID ::
           match tokenResult tokenAnswer with
           | Normal accessToken => [generationRequest this prompt accessToken]
           | Throw _ => []
           end
    /\ inserted events = match outcome with Normal text => [text] | Throw _ => [] end
    /\ match outcome with
       | Normal _ => True
       | Throw e => In (StatusText ("Ошибка: " +:+ message e)) events
       end.
Proof.
  intros Hkey Hprompt. unfold Modal.onGenerateClick.
  rewrite Hkey, Hprompt. cbv beta iota zeta. unfold negb.
  do 4 step. rewrite !after_after.
  unfold try_finally, try_catch.
  match goal with |- context [Modal.generateAndInsert this prompt h ?s] =>
    destruct (run_generateAndInsert this prompt h s)
      as (rqUID & events & st' & Hrun & Htrace & Hsent & Hins)
  end.
  cbv zeta in Hrun, Htrace, Hsent, Hins.
  rewrite fetched_after in Hrun, Hsent, Hins. rewrite trace_after in Htrace.
  rewrite Hrun. exists rqUID. cbv zeta.
  destruct (generationOutcome _ _ _ _) as [generatedText|e].
  - step. rewrite run_emit, after_after.
    eexists _, _; split; [reflexivity|]. simpl.
    split; [rewrite Htrace, <- !app_assoc; reflexivity|].
    split; [simpl; tally; rewrite Hsent; tally; reflexivity|].
    split; [simpl; tally; rewrite Hins; tally; reflexivity|].
    exact I.
  - do 2 step. rewrite run_logMessage. step. rewrite run_emit, !after_after.
    eexists _, _; split; [reflexivity|]. simpl.
    split; [rewrite Htrace, <- !app_assoc; reflexivity|].
    split; [simpl; tally; rewrite Hsent; tally; reflexivity|].
    split; [simpl; tally; rewrite Hins; tally; reflexivity|].
    rewrite !in_app_iff. simpl. tauto.
Qed.

(** ** The credential provider *)




(** C4.  When the token endpoint answers the token request with a status
    outside 200-299, [getAccessToken] throws the error
    [HTTP <status>: <statusText>] and returns no token. *)
Theorem getAccessToken_http_error this h st r :
  (forall rqUID, respond h (fetched st) (tokenRequest (settings this) rqUID) = Resolved r) ->
  ok r = false ->
  fst (getAccessToken this h st)
    = Throw (Error ("HTTP " +:+ pretty (status r) +:+ ": " +:+ statusText r))
  /\ (forall accessToken, fst (getAccessToken this h st) <> Normal accessToken).
Proof.
  intros Hanswer Hok.
  destruct (run_getAccessToken this h st) as (rqUID & before & later & d & Hrun & _).
  rewrite Hrun, Hanswer. simpl. rewrite Hok.
  split; [reflexivity|discriminate].
Qed.

Lemma getAccessToken_http_error_witness :
  fst (getAccessToken Mock.plugin (Mock.scripted Mock.unauthorized Mock.generated) initial)
    = Throw (Error "HTTP 401: Unauthorized")
  /\ (forall accessToken,
        fst (getAccessToken Mock.plugin (Mock.scripted Mock.unauthorized Mock.generated) initial)
          <> Normal accessToken).
Proof.
  apply (getAccessToken_http_error Mock.plugin
           (Mock.scripted Mock.unauthorized Mock.generated) initial
           (Mock.respondWith 401 "Unauthorized" Mock.noJson)).
  - intros rqUID. reflexivity.
  - reflexivity.
Defined.

(** ** The completion client *)

Lemma generateText_requests this prompt accessToken h st :
  requests (snd (Modal.generateText this prompt accessToken h st))
    = requests st ++ [plainRequest this prompt accessToken].
Proof.
  destruct (run_generateText this prompt accessToken h st) as (before & later & Hrun & Hb & Hl).
  rewrite Hrun. unfold requests. simpl. tally. reflexivity.
Qed.

Lemma generateTextWithContext_requests this prompt context accessToken h st :
  requests (snd (Modal.generateTextWithContext this prompt context accessToken h st))
    = requests st ++ [contextRequest this prompt context accessToken].
Proof.
  destruct (run_generateTextWithContext this prompt context accessToken h st)
    as (before & later & Hrun & Hb & Hl).
  rewrite Hrun. unfold requests. simpl. tally. reflexivity.
Qed.

Lemma messageContents_completion apiUrl accessToken model content temperature max_tokens :
  messageContents (completionRequest apiUrl accessToken
                     (completionBody model content temperature max_tokens))
    = Some [JStr content].
Proof. reflexivity. Qed.

(** C2.  [generateTextWithContext] sends one request whose single message
    has as content the prompt, two newlines, the word Контекст and a colon, a
    newline, and the context between two double quote characters;
    [generateText] sends one request whose single message has the prompt as
    its content; so for "Fix this" with context "some text", and for "Hello"
    without context. *)
Theorem completion_message_content :
  (forall this prompt context accessToken h st,
     exists req,
       requests (snd (Modal.generateTextWithContext this prompt context accessToken h st))
         = requests st ++ [req]
       /\ messageContents req
          = Some [JStr (prompt +:+ String "010" (String "010" ("Контекст:" +:+
                          String "010" (String "034" (context +:+ String "034" EmptyString)))))])
  /\ (forall this prompt accessToken h st,
        exists req,
          requests (snd (Modal.generateText this prompt accessToken h st)) = requests st ++ [req]
          /\ messageContents req = Some [JStr prompt])
  /\ (exists req,
        requests (snd (Modal.generateTextWithContext (Mock.modal "some text") "Fix this" "some text"
                         (JStr "T") (Mock.scripted Mock.generated Mock.generated) initial)) = [req]
        /\ messageContents req
           = Some [JStr ("Fix this" +:+ String "010" (String "010" ("Контекст:" +:+
                           String "010" (String "034" ("some text" +:+ String "034" EmptyString)))))])
  /\ (exists req,
        requests (snd (Modal.generateText (Mock.modal EmptyString) "Hello"
                         (JStr "T") (Mock.scripted Mock.generated Mock.generated) initial)) = [req]
        /\ messageContents req = Some [JStr "Hello"]).
Proof.
  assert (Hsep : forall prompt context,
            prompt +:+ Modal.contextSeparator +:+ context +:+ dquote
            = prompt +:+ String "010" (String "010" ("Контекст:" +:+
                String "010" (String "034" (context +:+ String "034" EmptyString))))).
  { intros prompt context. reflexivity. }
  split; [|split; [|split]].
  - intros. eexists. split; [apply generateTextWithContext_requests|].
    unfold contextRequest, plainRequest. rewrite messageContents_completion.
    by rewrite Hsep.
  - intros. eexists. split; [apply generateText_requests|].
    unfold plainRequest. apply messageContents_completion.
  - eexists. split; [apply (generateTextWithContext_requests _ _ _ _ _ initial)|].
    unfold contextRequest, plainRequest. rewrite messageContents_completion. reflexivity.
  - eexists. split; [apply (generateText_requests _ _ _ _ initial)|].
    unfold plainRequest. apply messageContents_completion.
Qed.

Lemma stringify_completionBody model content temperature max_tokens :
  JSON_stringify (completionBody model content temperature max_tokens)
  = JObj (<["model" := JStr model]>
         (<["messages" := JArr [JObj (<["role" := JStr "user"]> (<["content" := JStr content]> ∅))]]>
         (<["temperature" := written temperature]>
         (<["max_tokens" := written max_tokens]> ∅)))).
Proof. destruct temperature, max_tokens; reflexivity. Qed.

Lemma carriesValues_completion apiUrl accessToken model content temperature max_tokens :
  carriesValues (completionRequest apiUrl accessToken
                   (completionBody model content temperature max_tokens))
                model (written temperature) (written max_tokens).
Proof.
  unfold carriesValues, completionRequest. cbn [body].
  rewrite stringify_completionBody.
  eexists _, _. split; [reflexivity|].
  split; [rewrite !dom_insert_L, dom_empty_L; set_solver|].
  repeat split; reflexivity.
Qed.

Lemma carries_completion apiUrl accessToken model content temperature max_tokens :
  isFinite temperature = true -> isFinite max_tokens = true ->
  carries (completionRequest apiUrl accessToken
             (completionBody model content temperature max_tokens))
          model temperature max_tokens.
Proof.
  intros Ht Hm.
  destruct (carriesValues_completion apiUrl accessToken model content temperature max_tokens)
    as (fields & message & H).
  unfold written in H. rewrite Ht, Hm in H.
  exists fields, message. exact H.
Qed.

(** C3, as the code has it.  Whatever the settings and the prompt, the
    request of either completion call has a body made of exactly the model,
    a one-element message list with role "user", the temperature and the
    maximum number of tokens.  The two numbers are written by
    [JSON.stringify]: every finite number is in the body as it is in the
    settings, whatever its size or sign, and a number that is not finite
    (NaN, an infinity) is in the body as null. *)
Theorem completion_body_from_settings :
  (forall this prompt accessToken h st,
     exists req,
       requests (snd (Modal.generateText this prompt accessToken h st)) = requests st ++ [req]
       /\ carriesValues req (model (Modal.settings this))
                        (written (temperature (Modal.settings this)))
                        (written (maxTokens (Modal.settings this)))
       /\ (isFinite (temperature (Modal.settings this)) = true ->
           isFinite (maxTokens (Modal.settings this)) = true ->
           carries req (model (Modal.settings this)) (temperature (Modal.settings this))
                   (maxTokens (Modal.settings this))))
  /\ (forall this prompt context accessToken h st,
        exists req,
          requests (snd (Modal.generateTextWithContext this prompt context accessToken h st))
            = requests st ++ [req]
          /\ carriesValues req (model (Modal.settings this))
                           (written (temperature (Modal.settings this)))
                           (written (maxTokens (Modal.settings this)))
          /\ (isFinite (temperature (Modal.settings this)) = true ->
              isFinite (maxTokens (Modal.settings this)) = true ->
              carries req (model (Modal.settings this)) (temperature (Modal.settings this))
                      (maxTokens (Modal.settings this)))).
Proof.
  split; intros.
  - eexists. split; [apply generateText_requests|].
    split; [apply carriesValues_completion|apply carries_completion].
  - eexists. split; [apply generateTextWithContext_requests|].
    split; [apply carriesValues_completion|apply carries_completion].
Qed.

Lemma completion_body_from_settings_witness :
  (exists req,
     requests (snd (Modal.generateText (Mock.modal EmptyString) "Hello" (JStr "T")
                      (Mock.scripted Mock.generated Mock.generated) initial)) = [req]
     /\ carries req "GigaChat" (Frac 7 10) (Int 1000))
  /\ (exists req,
        requests (snd (Modal.generateTextWithContext (Mock.modal "some text") "Fix this" "some text"
                         (JStr "T") (Mock.scripted Mock.generated Mock.generated) initial)) = [req]
        /\ carries req "GigaChat" (Frac 7 10) (Int 1000)).
Proof.
  split.
  - destruct (proj1 completion_body_from_settings (Mock.modal EmptyString) "Hello" (JStr "T")
                (Mock.scripted Mock.generated Mock.generated) initial)
      as (req & Hreq & _ & Hfinite).
    exists req. split; [exact Hreq|exact (Hfinite eq_refl eq_refl)].
  - destruct (proj2 completion_body_from_settings (Mock.modal "some text") "Fix this" "some text"
                (JStr "T") (Mock.scripted Mock.generated Mock.generated) initial)
      as (req & Hreq & _ & Hfinite).
    exists req. split; [exact Hreq|exact (Hfinite eq_refl eq_refl)].
Defined.

(** C3, as the specification has it, fails when the maximum number of
    tokens is NaN, which is what [Number] makes of a text typed into the
    settings field that is no number: the change handler stores NaN in the
    settings, and the body of the completion request then has null in the
    field [max_tokens], not the number of the settings. *)
Lemma completion_body_null_for_NaN :
  Storage.asSettings
    (Storage.settings
       (SettingTab.onChange_maxTokens (fun _ => NaN) "abc"
          {| Storage.settings := Storage.settingsObject Mock.config;
             Storage.data := JNull |}))
  = Some MockMore.unparsedLimit
  /\ exists req fields,
       requests (snd (Modal.generateText MockMore.unparsedLimitModal "Hello" (JStr "T")
                        (Mock.scripted Mock.generated Mock.generated) initial)) = [req]
       /\ body req = BodyJson (JObj fields)
       /\ fields !! "max_tokens" = Some JNull
       /\ ~ carries req (model MockMore.unparsedLimit) (temperature MockMore.unparsedLimit)
                    (maxTokens MockMore.unparsedLimit).
Proof.
  split; [vm_compute; reflexivity|].
  eexists _, _. split; [apply (generateText_requests _ _ _ _ initial)|].
  unfold plainRequest, completionRequest. cbn [body].
  rewrite stringify_completionBody.
  split; [reflexivity|]. split; [reflexivity|].
  intros (fields & message & Hbody & _ & _ & _ & _ & _ & Hmax).
  injection Hbody as <-. discriminate Hmax.
Qed.

(** C5.  When the completion endpoint answers the request of a completion
    call with a status outside 200-299, the call, with or without context,
    throws the error [API error: <status> <statusText>] and returns no
    text. *)
Theorem completion_http_error this prompt context accessToken h st r :
  ok r = false ->
  (respond h (fetched st) (plainRequest this prompt accessToken) = Resolved r ->
   fst (Modal.generateText this prompt accessToken h st)
     = Throw (Error ("API error: " +:+ pretty (status r) +:+ " " +:+ statusText r)))
  /\ (respond h (fetched st) (contextRequest this prompt context accessToken) = Resolved r ->
      fst (Modal.generateTextWithContext this prompt context accessToken h st)
        = Throw (Error ("API error: " +:+ pretty (status r) +:+ " " +:+ statusText r))).
Proof.
  intros Hok. split; intros Hanswer.
  - destruct (run_generateText this prompt accessToken h st) as (before & later & Hrun & _).
    rewrite Hrun, Hanswer. simpl. by rewrite Hok.
  - destruct (run_generateTextWithContext this prompt context accessToken h st)
      as (before & later & Hrun & _).
    rewrite Hrun, Hanswer. simpl. by rewrite Hok.
Qed.

Lemma completion_http_error_witness :
  fst (Modal.generateText (Mock.modal EmptyString) "Hello" (JStr "T")
         (Mock.scripted Mock.serverError Mock.serverError) initial)
    = Throw (Error "API error: 500 Internal Server Error")
  /\ fst (Modal.generateTextWithContext (Mock.modal "some text") "Fix this" "some text" (JStr "T")
            (Mock.scripted Mock.serverError Mock.serverError) initial)
       = Throw (Error "API error: 500 Internal Server Error").
Proof.
  split.
  - apply (completion_http_error (Mock.modal EmptyString) "Hello" "some text" (JStr "T")
             (Mock.scripted Mock.serverError Mock.serverError) initial
             (Mock.respondWith 500 "Internal Server Error" Mock.noJson)); reflexivity.
  - apply (completion_http_error (Mock.modal "some text") "Fix this" "some text" (JStr "T")
             (Mock.scripted Mock.serverError Mock.serverError) initial
             (Mock.respondWith 500 "Internal Server Error" Mock.noJson)); reflexivity.
Defined.


(** On a 2xx answer whose [choices[0].message.content] can be read and
    has a [length] to read (it is not undefined or null), either completion
    call returns that content. *)
Lemma completion_returns_first_choice this prompt context accessToken h st r data generatedText len :
  ok r = true ->
  json r = Normal data ->
  Modal.firstChoiceContent data = Normal generatedText ->
  Get generatedText (Name "length") = Normal len ->
  (respond h (fetched st) (plainRequest this prompt accessToken) = Resolved r ->
   fst (Modal.generateText this prompt accessToken h st) = Normal generatedText)
  /\ (respond h (fetched st) (contextRequest this prompt context accessToken) = Resolved r ->
      fst (Modal.generateTextWithContext this prompt context accessToken h st)
        = Normal generatedText).
Proof.
  intros Hok Hjson Hcontent Hlen. split; intros Hanswer.
  - destruct (run_generateText this prompt accessToken h st) as (before & later & Hrun & _).
    rewrite Hrun, Hanswer. simpl. by rewrite Hok, Hjson, Hcontent, Hlen.
  - destruct (run_generateTextWithContext this prompt context accessToken h st)
      as (before & later & Hrun & _).
    rewrite Hrun, Hanswer. simpl. by rewrite Hok, Hjson, Hcontent, Hlen.
Qed.

Example generate_returns_Generated :
  fst (Modal.generateText (Mock.modal EmptyString) "Hello" (JStr "T")
         (Mock.scripted Mock.generated Mock.generated) initial)
    = Normal (JStr "Generated").
Proof.
  apply (completion_returns_first_choice (Mock.modal EmptyString) "Hello" "some text" (JStr "T")
           (Mock.scripted Mock.generated Mock.generated) initial
           (Mock.respondWith 200 "OK" (Normal (Mock.completionData "Generated")))
           (Mock.completionData "Generated") (JStr "Generated") (length_of 9));
    reflexivity.
Qed.




(** ** The connectivity test *)



(** ** The click handler of the modal *)

Lemma untouched_quiet events : quiet events -> editorUntouched events.
Proof.
  unfold quiet, editorUntouched. induction events as [|e events IH]; simpl; [done|].
  intros [He Hevents]%andb_prop. rewrite IH by done. by destruct e.
Qed.

Lemma untouched_app events1 events2 :
  editorUntouched events1 -> editorUntouched events2 -> editorUntouched (events1 ++ events2).
Proof. unfold editorUntouched. rewrite forallb_app. by intros -> ->. Qed.

Lemma untouched_inserted events : editorUntouched events -> inserted events = [].
Proof.
  unfold editorUntouched. induction events as [|e events IH]; simpl; [done|].
  intros [He Hevents]%andb_prop. rewrite inserted_cons, IH by done.
  by destruct e.
Qed.

Lemma untouched_not_closed events : editorUntouched events -> ~ In Close events.
Proof.
  unfold editorUntouched. rewrite forallb_forall. intros Hall Hin.
  specialize (Hall Close Hin). discriminate.
Qed.

#[local] Hint Resolve untouched_quiet untouched_app : quiet.

Lemma getAccessToken_frame this h st :
  exists events,
    trace (snd (getAccessToken this h st)) = trace st ++ events /\ editorUntouched events.
Proof.
  destruct (run_getAccessToken this h st) as (rqUID & before & later & d & Hrun & Hb & Hl).
  rewrite Hrun. simpl. eexists; split; [reflexivity|].
  apply untouched_app; [auto with quiet|].
  apply (untouched_app [_]); [reflexivity|auto with quiet].
Qed.

Lemma generation_frame this prompt accessToken h st :
  exists events,
    trace (snd (generation this prompt accessToken h st)) = trace st ++ events
    /\ editorUntouched events.
Proof.
  unfold generation. destruct (truthy_string (Modal.initialText this)).
  - destruct (run_generateTextWithContext this prompt (Modal.initialText this) accessToken h st)
      as (before & later & Hrun & Hb & Hl).
    rewrite Hrun. simpl. eexists; split; [reflexivity|].
    apply untouched_app; [auto with quiet|].
    apply (untouched_app [_]); [reflexivity|auto with quiet].
  - destruct (run_generateText this prompt accessToken h st) as (before & later & Hrun & Hb & Hl).
    rewrite Hrun. simpl. eexists; split; [reflexivity|].
    apply untouched_app; [auto with quiet|].
    apply (untouched_app [_]); [reflexivity|auto with quiet].
Qed.

(** The handler, case by case on its two calls. *)
Lemma run_click this prompt h st :
  truthy_string (apiKey (Modal.settings this)) = true ->
  truthy_string prompt = true ->
  let click := Modal.onGenerateClick this prompt h st in
  let failed e :=
    fst click = Normal tt
    /\ exists events,
         trace (snd click) = trace st ++ events
         /\ editorUntouched events
         /\ In (StatusText ("Ошибка: " +:+ message e)) events in
  match getAccessToken (Modal.plugin this) h (after st busy) with
  | (Throw e, _) => failed e
  | (Normal accessToken, st2) =>
      match generation this prompt accessToken h st2 with
      | (Throw e, _) => failed e
      | (Normal generatedText, _) =>
          fst click = Normal tt
          /\ insertions (snd click) = insertions st ++ [generatedText]
      end
  end.
Proof.
  intros Hkey Hprompt. cbv zeta.
  unfold Modal.onGenerateClick. rewrite Hkey, Hprompt. cbv beta iota zeta. unfold negb.
  do 4 step. rewrite !after_after. change ([_] ++ [_] ++ [_] ++ [_]) with busy.
  unfold try_finally, try_catch, Modal.generateAndInsert. rewrite run_bind.
  destruct (getAccessToken_frame (Modal.plugin this) h (after st busy)) as (events1 & Htrace1 & Hkeeps1).
  destruct (getAccessToken (Modal.plugin this) h (after st busy)) as [[accessToken|e] st2].
  - rewrite run_bind. fold (generation this prompt accessToken).
    destruct (generation_frame this prompt accessToken h st2) as (events2 & Htrace2 & Hkeeps2).
    destruct (generation this prompt accessToken h st2) as [[generatedText|e] st3].
    + step. rewrite run_emit, after_after. step. rewrite run_emit, after_after. simpl.
      split; [reflexivity|]. simpl in Htrace1, Htrace2.
      unfold insertions. simpl. rewrite Htrace2, Htrace1. tally.
      rewrite (untouched_inserted _ Hkeeps1), (untouched_inserted _ Hkeeps2), ?app_nil_r.
      reflexivity.
    + do 2 step. rewrite run_logMessage. step. rewrite run_emit, !after_after. simpl.
      split; [reflexivity|]. simpl in Htrace1, Htrace2.
      rewrite Htrace2, Htrace1, <- !app_assoc.
      eexists; split; [reflexivity|]. split.
      * repeat (apply untouched_app; [first [reflexivity|assumption|auto with quiet]|]).
        reflexivity.
      * rewrite !in_app_iff. simpl. tauto.
  - do 2 step. rewrite run_logMessage. step. rewrite run_emit, !after_after. simpl.
    split; [reflexivity|]. simpl in Htrace1.
    rewrite Htrace1, <- !app_assoc.
    eexists; split; [reflexivity|]. split.
    + repeat (apply untouched_app; [first [reflexivity|assumption|auto with quiet]|]).
      reflexivity.
    + rewrite !in_app_iff. simpl. tauto.
Qed.

(** C10.  Once the handler is past its two gates (an API key is set, the
    prompt is not empty): if [getAccessToken] throws, or the completion call
    it is followed by throws, the handler itself returns normally, nothing was
    inserted into the editor, no event of the handler touched the editor or
    closed the modal, and the status line shows the error; and when something
    was inserted, both calls had returned and what was inserted is the text
    the completion call returned. *)
Theorem no_insertion_on_failure this prompt h st :
  truthy_string (apiKey (Modal.settings this)) = true ->
  truthy_string prompt = true ->
  let click := Modal.onGenerateClick this prompt h st in
  (forall e,
     (fst (getAccessToken (Modal.plugin this) h (after st busy)) = Throw e
      \/ exists accessToken st2,
           getAccessToken (Modal.plugin this) h (after st busy) = (Normal accessToken, st2)
           /\ fst (generation this prompt accessToken h st2) = Throw e) ->
     fst click = Normal tt
     /\ insertions (snd click) = insertions st
     /\ exists events,
          trace (snd click) = trace st ++ events
          /\ editorUntouched events
          /\ In (StatusText ("Ошибка: " +:+ message e)) events)
  /\ (insertions (snd click) <> insertions st ->
      exists accessToken st2 generatedText,
        getAccessToken (Modal.plugin this) h (after st busy) = (Normal accessToken, st2)
        /\ fst (generation this prompt accessToken h st2) = Normal generatedText
        /\ insertions (snd click) = insertions st ++ [generatedText]).
Proof.
  intros Hkey Hprompt. cbv zeta.
  pose proof (run_click this prompt h st Hkey Hprompt) as Hcases. cbv zeta in Hcases.
  assert (Hfailed : forall e,
            (fst (Modal.onGenerateClick this prompt h st) = Normal tt
             /\ exists events,
                  trace (snd (Modal.onGenerateClick this prompt h st)) = trace st ++ events
                  /\ editorUntouched events
                  /\ In (StatusText ("Ошибка: " +:+ message e)) events) ->
            fst (Modal.onGenerateClick this prompt h st) = Normal tt
            /\ insertions (snd (Modal.onGenerateClick this prompt h st)) = insertions st
            /\ exists events,
                 trace (snd (Modal.onGenerateClick this prompt h st)) = trace st ++ events
                 /\ editorUntouched events
                 /\ In (StatusText ("Ошибка: " +:+ message e)) events).
  { intros e (Hnormal & events & Htrace & Hkeeps & Hstatus).
    split; [exact Hnormal|]. split; [|eauto].
    unfold insertions. rewrite Htrace, inserted_app, (untouched_inserted _ Hkeeps).
    apply app_nil_r. }
  destruct (getAccessToken (Modal.plugin this) h (after st busy)) as [[accessToken|e1] st2].
  - destruct (generation this prompt accessToken h st2) as [[generatedText|e2] st3] eqn:Hgen.
    + split.
      * intros e [Habsurd|(accessToken' & st2' & [= <- <-] & Hthrow)]; [discriminate|].
        rewrite Hgen in Hthrow. discriminate.
      * intros _. exists accessToken, st2, generatedText.
        rewrite Hgen. destruct Hcases as [_ Hins]. auto.
    + split.
      * intros e [Habsurd|(accessToken' & st2' & [= <- <-] & Hthrow)]; [discriminate|].
        rewrite Hgen in Hthrow. simpl in Hthrow. injection Hthrow as ->. auto.
      * intros Hchanged. destruct (Hfailed _ Hcases) as (_ & Hins & _). contradiction.
  - split.
    + intros e [Hthrow|(accessToken' & st2' & Habsurd & _)]; [|discriminate].
      simpl in Hthrow. injection Hthrow as ->. auto.
    + intros Hchanged. destruct (Hfailed _ Hcases) as (_ & Hins & _). contradiction.
Qed.

Lemma no_insertion_on_failure_witness :
  let click := Modal.onGenerateClick (Mock.modal EmptyString) "Hello"
                 (Mock.scripted Mock.unauthorized Mock.generated) initial in
  fst click = Normal tt
  /\ insertions (snd click) = insertions initial
  /\ exists events,
       trace (snd click) = trace initial ++ events
       /\ editorUntouched events
       /\ In (StatusText ("Ошибка: " +:+ message (Error "HTTP 401: Unauthorized"))) events.
Proof.
  apply (proj1 (no_insertion_on_failure (Mock.modal EmptyString) "Hello"
                  (Mock.scripted Mock.unauthorized Mock.generated) initial eq_refl eq_refl)
               (Error "HTTP 401: Unauthorized")).
  left. vm_compute. reflexivity.
Defined.

(** When the token request yields no token, the handler sends no further
    request and inserts nothing. *)
Lemma no_completion_request_without_token this prompt h st :
  truthy_string (apiKey (Modal.settings this)) = true ->
  truthy_string prompt = true ->
  exists rqUID,
    forall e,
      tokenResult (respond h (fetched st) (tokenRequest (settings (Modal.plugin this)) rqUID))
        = Throw e ->
      requests (snd (Modal.onGenerateClick this prompt h st))
        = requests st ++ [tokenRequest (settings (Modal.plugin this)) rqUID]
      /\ insertions (snd (Modal.onGenerateClick this prompt h st)) = insertions st.
Proof.
  intros Hkey Hprompt.
  destruct (run_onGenerateClick this prompt h st Hkey Hprompt)
    as (rqUID & events & st' & Hrun & Htrace & Hsent & Hins & _).
  cbv zeta in Hrun, Hsent, Hins. exists rqUID. intros e Htoken.
  unfold generationOutcome in Hins. rewrite Htoken in Hsent, Hins.
  rewrite Hrun. unfold requests, insertions. simpl. rewrite Htrace. tally.
  by rewrite Hsent, Hins, app_nil_r.
Qed.

(** C6, evaluated where it fails.  The token endpoint answers 200 with an
    empty [access_token]: [getAccessToken] returns the empty string, a falsy
    value.  The click handler of the modal goes on, sends the completion
    request with that token and inserts the answer; [testConnection], given
    the same answers, stops at its check of the token and sends the token
    request only.  The same happens when [access_token] is missing and the
    token is undefined. *)
Theorem modal_sends_with_empty_token :
  let h := Mock.scripted Mock.emptyToken Mock.generated in
  let click := Modal.onGenerateClick (Mock.modal EmptyString) "Hello" h initial in
  fst (getAccessToken Mock.plugin h initial) = Normal (JStr EmptyString)
  /\ truthy (JStr EmptyString) = false
  /\ (exists rqUID,
        requests (snd click)
          = [tokenRequest Mock.config rqUID;
             completionRequest (apiUrl Mock.config) (JStr EmptyString)
               (completionBody (model Mock.config) "Hello"
                  (temperature Mock.config) (maxTokens Mock.config))]
        /\ requests (snd (testConnection Mock.plugin h initial)) = [tokenRequest Mock.config rqUID])
  /\ insertions (snd click) = [JStr "Generated"]
  /\ fst (testConnection Mock.plugin h initial) = Normal false
  /\ (let h' := Mock.scripted Mock.emptyObject Mock.generated in
      fst (getAccessToken Mock.plugin h' initial) = Normal JUndefined
      /\ insertions (snd (Modal.onGenerateClick (Mock.modal EmptyString) "Hello" h' initial))
         = [JStr "Generated"]
      /\ fst (testConnection Mock.plugin h' initial) = Normal false).
Proof.
  cbv zeta. split; [|split; [|split; [|split; [|split]]]].
  - vm_compute. reflexivity.
  - reflexivity.
  - eexists. split; vm_compute; reflexivity.
  - vm_compute. reflexivity.
  - vm_compute. reflexivity.
  - repeat split; vm_compute; reflexivity.
Qed.

(** ** Settings storage *)

Lemma assign_source (target source : gmap string JsValue) :
  map_fold (fun k v acc => <[k := v]> acc) target source = source ∪ target.
Proof.
  apply (map_fold_weak_ind (fun r m => r = m ∪ target)).
  - by rewrite (left_id_L ∅ (∪)).
  - intros k v m r Hk ->. by rewrite insert_union_l.
Qed.

Lemma loadSettings_lookup (current persisted : gmap string JsValue) k :
  Storage.settings (Storage.loadSettings
                      {| Storage.settings := current; Storage.data := JObj persisted |}) !! k
  = match persisted !! k with
    | Some v => Some v
    | None => Storage.settingsObject DEFAULT_SETTINGS !! k
    end.
Proof.
  unfold Storage.loadSettings, Storage.Object_assign, Storage.loadData. simpl.
  rewrite !assign_source, lookup_union, lookup_union, lookup_empty.
  destruct (persisted !! k), (Storage.settingsObject DEFAULT_SETTINGS !! k); reflexivity.
Qed.

Lemma dom_settingsObject c :
  dom (Storage.settingsObject c)
  = {[ "apiKey"; "apiUrl"; "authUrl"; "clientId"; "scope"; "model";
       "temperature"; "maxTokens"; "logMessages" ]}.
Proof. unfold Storage.settingsObject. rewrite !dom_insert_L, dom_empty_L. set_solver. Qed.

Lemma asSettings_settingsObject c : Storage.asSettings (Storage.settingsObject c) = Some c.
Proof. destruct c. reflexivity. Qed.

(** C9.  A settings record saved and then loaded comes back as the same
    object, which reads as the same record, field for field.  Loading a
    persisted object gives every key the persisted value when there is one
    and the value of [DEFAULT_SETTINGS] otherwise, so every field of the
    settings is populated; with nothing persisted the defaults are loaded. *)
Theorem settings_roundtrip_and_defaults :
  (forall c host,
     let reloaded := Storage.loadSettings (Storage.saveSettings
                       {| Storage.settings := Storage.settingsObject c; Storage.data := host |}) in
     Storage.settings reloaded = Storage.settingsObject c
     /\ Storage.asSettings (Storage.settings reloaded) = Some c)
  /\ (forall current persisted,
        let loaded := Storage.loadSettings
                        {| Storage.settings := current; Storage.data := JObj persisted |} in
        (forall k,
           Storage.settings loaded !! k
           = match persisted !! k with
             | Some v => Some v
             | None => Storage.settingsObject DEFAULT_SETTINGS !! k
             end)
        /\ dom (Storage.settingsObject DEFAULT_SETTINGS) ⊆ dom (Storage.settings loaded))
  /\ (forall current,
        Storage.settings (Storage.loadSettings
                            {| Storage.settings := current; Storage.data := JNull |})
        = Storage.settingsObject DEFAULT_SETTINGS).
Proof.
  split; [|split].
  - intros c host. cbv zeta.
    assert (Hsame : Storage.settings (Storage.loadSettings (Storage.saveSettings
                      {| Storage.settings := Storage.settingsObject c; Storage.data := host |}))
                    = Storage.settingsObject c).
    { apply map_eq. intros k. unfold Storage.saveSettings, Storage.saveData.
      rewrite loadSettings_lookup. simpl.
      destruct (Storage.settingsObject c !! k) eqn:Hk; [reflexivity|].
      apply not_elem_of_dom in Hk. apply not_elem_of_dom.
      by rewrite dom_settingsObject in *. }
    rewrite Hsame. split; [reflexivity|apply asSettings_settingsObject].
  - intros current persisted. cbv zeta. split.
    + intros k. apply loadSettings_lookup.
    + intros k Hk. apply elem_of_dom. rewrite loadSettings_lookup.
      apply elem_of_dom in Hk. by destruct (persisted !! k).
  - intros current. unfold Storage.loadSettings, Storage.Object_assign, Storage.loadData. simpl.
    rewrite !assign_source, (left_id_L ∅ (∪)). by rewrite (right_id_L ∅ (∪)).
Qed.


(** ** The request identifier *)

Lemma below_16 (P : N -> Prop) :
  P 0%N -> P 1%N -> P 2%N -> P 3%N -> P 4%N -> P 5%N -> P 6%N -> P 7%N ->
  P 8%N -> P 9%N -> P 10%N -> P 11%N -> P 12%N -> P 13%N -> P 14%N -> P 15%N ->
  forall v, (v < 16)%N -> P v.
Proof.
  intros H0 H1 H2 H3 H4 H5 H6 H7 H8 H9 H10 H11 H12 H13 H14 H15 v Hv.
  rewrite <- (N2Nat.id v). assert (Hn : N.to_nat v < 16) by lia. clear Hv.
  revert Hn. generalize (N.to_nat v). intros n Hn.
  do 16 (destruct n as [|n]; [assumption|]). lia.
Qed.

Lemma toString16_hex v :
  (v < 16)%N -> exists c, toString16 v = String c EmptyString /\ isHex c = true.
Proof. revert v. apply below_16; eexists; split; reflexivity. Qed.

Lemma toString16_variant r :
  (r < 16)%N ->
  exists c, toString16 (N.lor (N.land r 3) 8) = String c EmptyString /\ isVariant c = true.
Proof. revert r. apply below_16; eexists; split; reflexivity. Qed.

Lemma fits_length template s : fits template s = true -> String.length s = String.length template.
Proof.
  revert s. induction template as [|t template IH]; intros [|c s]; simpl; try discriminate.
  - reflexivity.
  - intros [_ Hrest]%andb_prop. f_equal. auto.
Qed.

(** A character of the template other than x and y is found in place. *)
Lemma fits_get template s i t :
  fits template s = true ->
  String.get i template = Some t ->
  Ascii.eqb t "x" = false -> Ascii.eqb t "y" = false ->
  String.get i s = Some t.
Proof.
  revert s i. induction template as [|t0 template IH]; intros [|c s] i; simpl; try discriminate.
  intros [Hhead Hrest]%andb_prop Hget Hx Hy. destruct i as [|i].
  - injection Hget as ->. rewrite Hx, Hy in Hhead.
    apply Ascii.eqb_eq in Hhead. by subst.
  - eauto.
Qed.

(** [replace_xy] reads the random source from the current draw on and
    nothing else of the state, and leaves the rest of the state alone. *)
Lemma replace_xy_exact template h st :
  replace_xy template h st =
  (Normal (filledAt template h (drawn st)),
   {| trace := trace st; fetched := fetched st; drawn := drawn st + xyCount template |}).
Proof.
  revert st. induction template as [|c rest IH]; intros st.
  - destruct st. unfold filledAt. simpl. unfold mret, M_ret. do 2 f_equal. lia.
  - unfold filledAt. cbn [replace_xy xyCount].
    destruct (Ascii.eqb c "x" || Ascii.eqb c "y")%bool.
    + rewrite !run_bind. unfold random16. cbv beta iota. rewrite !run_bind.
      rewrite !IH. cbn. do 2 f_equal. lia.
    + rewrite !run_bind. rewrite !IH. cbn. reflexivity.
Qed.

Lemma filledAt_cons c rest h d :
  filledAt (String c rest) h d =
  if (Ascii.eqb c "x" || Ascii.eqb c "y")%bool then
    toString16 (if Ascii.eqb c "x" then (random h d mod 16)%N
                else N.lor (N.land (random h d mod 16) 3) 8)
    +:+ filledAt rest h (S d)
  else String c (filledAt rest h d).
Proof.
  unfold filledAt at 1. cbn [replace_xy].
  destruct (Ascii.eqb c "x" || Ascii.eqb c "y")%bool.
  - rewrite run_bind. unfold random16. cbv beta iota.
    rewrite run_bind, replace_xy_exact. reflexivity.
  - rewrite run_bind, replace_xy_exact. reflexivity.
Qed.

(** In the place of a y there is one of 8, 9, a, b. *)
Lemma fits_get_y template s i :
  fits template s = true ->
  String.get i template = Some "y"%char ->
  exists c, String.get i s = Some c /\ isVariant c = true.
Proof.
  revert s i. induction template as [|t0 template IH]; intros [|c s] i; simpl; try discriminate.
  intros [Hhead Hrest]%andb_prop Hget. destruct i as [|i].
  - injection Hget as ->. simpl in Hhead. eauto.
  - eauto.
Qed.

Lemma append_single c s : String c EmptyString +:+ s = String c s.
Proof. reflexivity. Qed.

Lemma filledAt_fits template h d : fits template (filledAt template h d) = true.
Proof.
  revert d. induction template as [|c rest IH]; intros d; [reflexivity|].
  rewrite filledAt_cons.
  assert (Hr : (random h d mod 16 < 16)%N) by (apply N.mod_upper_bound; lia).
  destruct (Ascii.eqb c "x") eqn:Hx; [|destruct (Ascii.eqb c "y") eqn:Hy]; cbn [orb].
  - destruct (toString16_hex _ Hr) as (digit & Hd & Hdigit).
    rewrite Hd, append_single. cbn [fits]. by rewrite Hx, Hdigit, IH.
  - destruct (toString16_variant _ Hr) as (digit & Hd & Hdigit).
    rewrite Hd, append_single. cbn [fits]. by rewrite Hx, Hy, Hdigit, IH.
  - cbn [fits]. by rewrite Hx, Hy, Ascii.eqb_refl, IH.
Qed.

Lemma generateUuid_exact h st :
  generateUuid h st =
  (Normal (uuidAt h (drawn st)),
   {| trace := trace st; fetched := fetched st; drawn := drawn st + 31 |}).
Proof.
  unfold generateUuid. rewrite replace_xy_exact.
  replace (xyCount "xxxxxxxx-xxxx-4xxx-yxxx-xxxxxxxxxxxx") with 31 by (vm_compute; reflexivity).
  unfold uuidAt, generateUuid, filledAt. reflexivity.
Qed.

Lemma uuidAt_filled h d :
  uuidAt h d = filledAt "xxxxxxxx-xxxx-4xxx-yxxx-xxxxxxxxxxxx" h d.
Proof. unfold uuidAt, generateUuid, filledAt. reflexivity. Qed.

Lemma uuidAt_shape h d : isUuidV4 (uuidAt h d) = true.
Proof. unfold isUuidV4. rewrite uuidAt_filled. exact (filledAt_fits _ h d). Qed.

#[local] Opaque uuidAt.

(** X1.  [generateUuid] always returns: a string of 36 characters shaped
    like a version 4 UUID (lower-case hexadecimal digits in five groups of 8,
    4, 4, 4 and 12 separated by hyphens, the third group starting with 4 and
    the fourth with 8, 9, a or b).  It takes exactly 31 random draws and has
    no other effect. *)
Theorem generateUuid_shape h st :
  exists s,
    generateUuid h st =
      (Normal s, {| trace := trace st; fetched := fetched st; drawn := drawn st + 31 |})
    /\ isUuidV4 s = true
    /\ String.length s = 36
    /\ String.get 8 s = Some "-"%char /\ String.get 13 s = Some "-"%char
    /\ String.get 18 s = Some "-"%char /\ String.get 23 s = Some "-"%char
    /\ String.get 14 s = Some "4"%char
    /\ (exists c, String.get 19 s = Some c /\ isVariant c = true).
Proof.
  exists (uuidAt h (drawn st)). pose proof (uuidAt_shape h (drawn st)) as Hshape.
  split; [apply generateUuid_exact|]. split; [exact Hshape|].
  split; [apply (fits_length _ _ Hshape)|].
  repeat (split; [by apply (fits_get _ _ _ _ Hshape)|]).
  by apply (fits_get_y _ _ _ Hshape).
Qed.

(** ** What the logger and the network leave in the trace *)

Lemma networkLog_logged1 this h message type st :
  networkLog this h (logged this message type h st).
Proof.
  rewrite <- (app_nil_r (logged this message type h st)).
  apply networkLog_logged, networkLog_nil.
Qed.

Lemma networkLog_app this h events1 events2 :
  networkLog this h events1 -> networkLog this h events2 ->
  networkLog this h (events1 ++ events2).
Proof.
  induction 1 as [|message type st events _ IH|req events _ IH]; intros Hevents2; simpl.
  - exact Hevents2.
  - rewrite <- app_assoc. apply networkLog_logged. auto.
  - apply networkLog_fetch. auto.
Qed.

(** With logging switched off, such events are the requests and nothing
    else. *)
Lemma networkLog_silent this h events :
  logMessages (settings this) = false ->
  networkLog this h events ->
  events = map Fetch (sent events).
Proof.
  intros Hoff. induction 1 as [|message type st events _ IH|req events _ IH].
  - reflexivity.
  - unfold logged. rewrite Hoff. exact IH.
  - rewrite sent_cons. simpl. by rewrite <- IH.
Qed.

(** With no log panel attached, none of them is an entry of the panel. *)
Lemma networkLog_console this h events :
  logContainer this = false ->
  networkLog this h events ->
  existsb isLogEntry events = false.
Proof.
  intros Hnull. induction 1 as [|message type st events _ IH|req events _ IH].
  - reflexivity.
  - rewrite existsb_app, IH. unfold logged. rewrite Hnull.
    by destruct (logMessages (settings this)).
  - exact IH.
Qed.

Lemma networkLog_untouched this h events : networkLog this h events -> editorUntouched events.
Proof.
  induction 1 as [|message type st events _ IH|req events _ IH].
  - reflexivity.
  - apply untouched_app; [apply untouched_quiet, quiet_logged|exact IH].
  - exact IH.
Qed.

(** Splits a list of events written in segments into log entries and
    requests. *)
Ltac network :=
  repeat first
    [ assumption
    | apply networkLog_nil
    | apply networkLog_logged1
    | apply networkLog_logged
    | apply networkLog_fetch
    | apply (networkLog_app _ _ [_])
    | apply networkLog_app ].

(** Closes a goal that asks for the state after a run and for the events
    that led to it. *)
Ltac exactly :=
  eexists; split;
  [unfold after, lift, throw; simpl; rewrite <- ?app_assoc; reflexivity|].

(** [getAccessToken], whatever the answer: one request, the token request
    under the identifier the random source gives, 31 draws, and log entries;
    a failure is logged as an error with its message. *)
Lemma getAccessToken_exact this h st :
  let req := tokenRequest (settings this) (uuidAt h (drawn st)) in
  exists events,
    getAccessToken this h st =
      (tokenResult (respond h (fetched st) req),
       {| trace := trace st ++ events; fetched := S (fetched st); drawn := drawn st + 31 |})
    /\ networkLog this h events
    /\ sent events = [req]
    /\ (forall e,
          tokenResult (respond h (fetched st) req) = Throw e ->
          logMessages (settings this) = true ->
          In (ConsoleLog error [Lit ("Ошибка получения access token: " +:+ message e)]) events).
Proof.
  cbv zeta. unfold getAccessToken, try_catch.
  rewrite run_bind, run_logMessage.
  rewrite run_bind, generateUuid_exact, run_bind, run_fetch. simpl.
  destruct (respond h (fetched st) (tokenRequest (settings this) (uuidAt h (drawn st)))) as [r|e];
    simpl.
  - destruct (ok r) eqn:Hok; simpl.
    + unfold lift at 1. rewrite run_bind. simpl.
      destruct (json r) as [authData|e]; simpl.
      * rewrite run_bind. unfold lift at 1.
        destruct authData; simpl; rewrite ?run_bind, run_logMessage; exactly;
          (split; [network|]); (split; [tally; reflexivity|]);
          intros e' He' Hlog; try discriminate He';
          injection He' as <-; rewrite !in_app_iff; right; right;
          unfold logged; rewrite Hlog; left; reflexivity.
      * rewrite run_bind, run_logMessage. exactly.
        split; [network|]. split; [tally; reflexivity|].
        intros e' [= <-] Hlog. rewrite !in_app_iff. right. right.
        unfold logged. rewrite Hlog. left. reflexivity.
    + rewrite run_bind, run_logMessage. exactly.
      split; [network|]. split; [tally; reflexivity|].
      intros e' [= <-] Hlog. rewrite !in_app_iff. right. right.
      unfold logged. rewrite Hlog. left. reflexivity.
  - rewrite run_bind, run_logMessage. exactly.
    split; [network|]. split; [tally; reflexivity|].
    intros e' [= <-] Hlog. rewrite !in_app_iff. right. right.
    unfold logged. rewrite Hlog. left. reflexivity.
Qed.

Lemma completion_tail_exact (this : Modal.TextGenerationModal) (req : Request) (suffix : string) h st :
  exists events,
    (response ← fetch req;
     if negb (ok response) then
       throw (Error ("API error: " +:+ pretty (status response) +:+ " " +:+ statusText response))
     else
       data ← lift (json response);
       generatedText ← lift (Modal.firstChoiceContent data);
       len ← lift (Get generatedText (Name "length"));
       logMessage (Modal.plugin this) [Lit "Сгенерировано "; Interp len; Lit suffix] success;;
       mret generatedText) h st =
      (completionResult (respond h (fetched st) req),
       {| trace := trace st ++ events; fetched := S (fetched st); drawn := drawn st |})
    /\ networkLog (Modal.plugin this) h events
    /\ sent events = [req].
Proof.
  rewrite run_bind, run_fetch. unfold completionResult.
  destruct (respond h (fetched st) req) as [r|e]; simpl.
  - destruct (ok r); simpl.
    + rewrite run_bind. unfold lift at 1.
      destruct (json r) as [data|e]; simpl;
        [|exists [Fetch req]; split; [reflexivity|split; [network|reflexivity]]].
      rewrite run_bind. unfold lift at 1.
      destruct (Modal.firstChoiceContent data) as [generatedText|e]; simpl;
        [|exists [Fetch req]; split; [reflexivity|split; [network|reflexivity]]].
      rewrite run_bind. unfold lift at 1.
      destruct (Get generatedText (Name "length")) as [len|e]; simpl;
        [|exists [Fetch req]; split; [reflexivity|split; [network|reflexivity]]].
      rewrite run_bind, run_logMessage. exactly.
      split; [network|tally; reflexivity].
    + exists [Fetch req]; split; [reflexivity|split; [network|reflexivity]].
  - exists [Fetch req]; split; [reflexivity|split; [network|reflexivity]].
Qed.

(** Either completion call, whatever the answer: one request, no draw, and
    log entries. *)
Lemma generateText_exact this prompt accessToken h st :
  exists events,
    Modal.generateText this prompt accessToken h st =
      (completionResult (respond h (fetched st) (plainRequest this prompt accessToken)),
       {| trace := trace st ++ events; fetched := S (fetched st); drawn := drawn st |})
    /\ networkLog (Modal.plugin this) h events
    /\ sent events = [plainRequest this prompt accessToken].
Proof.
  unfold Modal.generateText. rewrite run_bind, run_logMessage.
  match goal with |- context [after st ?l] => set (before := l) end.
  destruct (completion_tail_exact this (plainRequest this prompt accessToken) " символов" h
              (after st before)) as (events & Hrun & Hlog & Hsent).
  unfold plainRequest in *. rewrite Hrun.
  exists (before ++ events). split; [unfold after; simpl; by rewrite <- app_assoc|].
  split; [subst before; network|]. subst before. tally. by rewrite Hsent.
Qed.

Lemma generateTextWithContext_exact this prompt context accessToken h st :
  exists events,
    Modal.generateTextWithContext this prompt context accessToken h st =
      (completionResult (respond h (fetched st) (contextRequest this prompt context accessToken)),
       {| trace := trace st ++ events; fetched := S (fetched st); drawn := drawn st |})
    /\ networkLog (Modal.plugin this) h events
    /\ sent events = [contextRequest this prompt context accessToken].
Proof.
  unfold Modal.generateTextWithContext. rewrite run_bind, run_logMessage.
  match goal with |- context [after st ?l] => set (before := l) end.
  destruct (completion_tail_exact this (contextRequest this prompt context accessToken)
              " символов с контекстом" h (after st before)) as (events & Hrun & Hlog & Hsent).
  unfold contextRequest, plainRequest in *. cbv zeta. rewrite Hrun.
  exists (before ++ events). split; [unfold after; simpl; by rewrite <- app_assoc|].
  split; [subst before; network|]. subst before. tally. by rewrite Hsent.
Qed.

Lemma generation_exact this prompt accessToken h st :
  exists events,
    generation this prompt accessToken h st =
      (completionResult (respond h (fetched st) (generationRequest this prompt accessToken)),
       {| trace := trace st ++ events; fetched := S (fetched st); drawn := drawn st |})
    /\ networkLog (Modal.plugin this) h events
    /\ sent events = [generationRequest this prompt accessToken].
Proof.
  unfold generation, generationRequest. destruct (truthy_string (Modal.initialText this)).
  - apply generateTextWithContext_exact.
  - apply generateText_exact.
Qed.

Lemma testApiRequest_exact this accessToken h st :
  exists events,
    testApiRequest this accessToken h st =
      (Normal (testResult (respond h (fetched st) (testRequest this accessToken))),
       {| trace := trace st ++ events; fetched := S (fetched st); drawn := drawn st |})
    /\ networkLog this h events
    /\ sent events = [testRequest this accessToken].
Proof.
  unfold testApiRequest, try_catch. fold (testRequest this accessToken).
  rewrite run_bind, run_logMessage.
  rewrite run_bind, run_fetch. simpl.
  destruct (respond h (fetched st) (testRequest this accessToken)) as [r|e]; simpl.
  - destruct (ok r); simpl.
    + rewrite run_bind. unfold lift at 1.
      destruct (json r) as [data|e]; simpl; rewrite run_bind, run_logMessage;
        exactly; (split; [network|tally; reflexivity]).
    + rewrite run_bind, run_logMessage. exactly. split; [network|tally; reflexivity].
  - rewrite run_bind, run_logMessage. exactly. split; [network|tally; reflexivity].
Qed.

(** [testConnection] in full: its result, its requests, its draws. *)
Lemma testConnection_exact this h st :
  let req := tokenRequest (settings this) (uuidAt h (drawn st)) in
  let token := tokenResult (respond h (fetched st) req) in
  exists events st',
    testConnection this h st =
      (Normal (truthy_string (apiKey (settings this))
               && match token with
                  | Normal accessToken =>
                      truthy accessToken
                      && testResult (respond h (S (fetched st)) (testRequest this accessToken))
                  | Throw _ => false
                  end), st')
    /\ trace st' = trace st ++ events
    /\ networkLog this h events
    /\ sent events =
         (if truthy_string (apiKey (settings this)) then
            req :: match token with
                   | Normal accessToken =>
                       if truthy accessToken then [testRequest this accessToken] else []
                   | Throw _ => []
                   end
          else [])
    /\ drawn st' = drawn st + (if truthy_string (apiKey (settings this)) then 31 else 0).
Proof.
  cbv zeta. unfold testConnection.
  rewrite run_bind, run_logMessage.
  destruct (truthy_string (apiKey (settings this))) eqn:Hkey; simpl.
  - unfold try_catch. rewrite run_bind, run_logMessage, after_after.
    match goal with |- context [mbind _ (getAccessToken this) h ?s] =>
      destruct (getAccessToken_exact this h s) as (events1 & Hrun1 & Hlog1 & Hsent1 & _)
    end.
    cbv zeta in Hrun1, Hsent1. rewrite fetched_after in Hrun1.
    change (drawn (after st ?l)) with (drawn st) in Hrun1, Hsent1.
    rewrite run_bind, Hrun1. simpl.
    destruct (tokenResult _) as [accessToken|e]; simpl.
    + destruct (truthy accessToken); simpl.
      * rewrite run_bind, run_logMessage, run_bind, run_logMessage, after_after.
        match goal with |- context [mbind _ (testApiRequest this accessToken) h ?s] =>
          destruct (testApiRequest_exact this accessToken h s)
            as (events2 & Hrun2 & Hlog2 & Hsent2)
        end.
        rewrite run_bind, Hrun2. simpl.
        destruct (testResult _); simpl; rewrite run_bind, run_logMessage; simpl;
          (eexists _, _; split; [reflexivity|]; simpl;
           split; [rewrite <- !app_assoc; reflexivity|]);
          (split; [network|]); (split; [|reflexivity]);
          tally; rewrite Hsent1, Hsent2; reflexivity.
      * rewrite run_bind, run_logMessage. simpl.
        eexists _, _; split; [reflexivity|]; simpl.
        split; [rewrite <- !app_assoc; reflexivity|].
        split; [network|]. split; [|reflexivity].
        tally. rewrite Hsent1. reflexivity.
    + rewrite run_bind, run_logMessage. simpl.
      eexists _, _; split; [reflexivity|]; simpl.
      split; [rewrite <- !app_assoc; reflexivity|].
      split; [network|]. split; [|reflexivity].
      tally. rewrite Hsent1. reflexivity.
  - rewrite run_bind, run_logMessage. simpl. rewrite after_after.
    eexists _, _; split; [reflexivity|]. simpl.
    split; [reflexivity|]. split; [network|]. split; [tally; reflexivity|lia].
Qed.

(** The click handler past its gates, in full: the widget updates before,
    the token request and (with a token) the completion request with their
    log entries, then the insertion and the closing of the modal or the
    error in the status line and in the log, and last the button set back. *)
Lemma click_exact this prompt h st :
  truthy_string (apiKey (Modal.settings this)) = true ->
  truthy_string prompt = true ->
  let tokenReq := tokenRequest (settings (Modal.plugin this)) (uuidAt h (drawn st)) in
  let token := tokenResult (respond h (fetched st) tokenReq) in
  let outcome :=
    generationOutcome this prompt (respond h (fetched st) tokenReq)
      (fun accessToken => respond h (S (fetched st)) (generationRequest this prompt accessToken)) in
  exists middle later st',
    Modal.onGenerateClick this prompt h st = (Normal tt, st')
    /\ trace st' = trace st ++ busy ++ middle ++ later
                     ++ [ButtonText "Сгенерировать"; ButtonDisabled false]
    /\ networkLog (Modal.plugin this) h middle
    /\ sent middle =
         tokenReq :: match token with
                     | Normal accessToken => [generationRequest this prompt accessToken]
                     | Throw _ => []
                     end
    /\ drawn st' = drawn st + 31
    /\ match outcome with
       | Normal generatedText => later = [ReplaceRange generatedText; Close]
       | Throw e =>
           exists s,
             later = [StatusText ("Ошибка: " +:+ message e); StatusStyle Modal.statusFailed]
                     ++ logged (Modal.plugin this) [Lit ("Ошибка генерации: " +:+ message e)]
                          error h s
       end.
Proof.
  intros Hkey Hprompt. cbv zeta.
  unfold Modal.onGenerateClick. rewrite Hkey, Hprompt. cbv beta iota zeta. unfold negb.
  do 4 step. rewrite !after_after. change ([_] ++ [_] ++ [_] ++ [_]) with busy.
  unfold try_finally, try_catch, Modal.generateAndInsert, generationOutcome. rewrite run_bind.
  destruct (getAccessToken_exact (Modal.plugin this) h (after st busy))
    as (events1 & Hrun1 & Hlog1 & Hsent1 & _).
  cbv zeta in Hrun1, Hsent1. rewrite fetched_after in Hrun1.
  change (drawn (after st busy)) with (drawn st) in Hrun1, Hsent1.
  rewrite Hrun1. clear Hrun1.
  destruct (tokenResult _) as [accessToken|e].
  - rewrite run_bind. fold (generation this prompt accessToken).
    match goal with |- context [generation this prompt accessToken h ?s] =>
      destruct (generation_exact this prompt accessToken h s)
        as (events2 & Hrun2 & Hlog2 & Hsent2)
    end.
    rewrite Hrun2. clear Hrun2. cbn [fetched trace drawn].
    destruct (completionResult _) as [generatedText|e].
    + step. rewrite run_emit, after_after. step. rewrite run_emit, after_after. simpl.
      exists (events1 ++ events2), [ReplaceRange generatedText; Close]. eexists.
      split; [reflexivity|]. simpl.
      split; [rewrite <- !app_assoc; reflexivity|].
      split; [network|]. split; [tally; by rewrite Hsent1, Hsent2|].
      split; reflexivity.
    + do 2 step. rewrite run_logMessage. step. rewrite run_emit, !after_after.
      match goal with |- context [logged ?p ?m error ?hh ?s] =>
        exists (events1 ++ events2),
               ([StatusText ("Ошибка: " +:+ message e); StatusStyle Modal.statusFailed]
                  ++ logged p m error hh s)
      end.
      eexists. split; [reflexivity|]. simpl.
      split; [rewrite <- !app_assoc; reflexivity|].
      split; [network|]. split; [tally; by rewrite Hsent1, Hsent2|].
      split; [reflexivity|]. eexists. reflexivity.
  - do 2 step. rewrite run_logMessage. step. rewrite run_emit, !after_after.
    match goal with |- context [logged ?p ?m error ?hh ?s] =>
      exists events1,
             ([StatusText ("Ошибка: " +:+ message e); StatusStyle Modal.statusFailed]
                ++ logged p m error hh s)
    end.
    eexists. split; [reflexivity|]. simpl.
    split; [rewrite <- !app_assoc; reflexivity|].
    split; [network|]. split; [tally; by rewrite Hsent1|].
    split; [reflexivity|]. eexists. reflexivity.
Qed.

(** ** More on the credential provider *)

(** X2.  Whatever the token endpoint answers, [getAccessToken] sends exactly
    one request and never a second one: a POST to [authUrl], form encoded,
    with [Basic <clientId>] as authorization, a well-formed version 4 UUID as
    [RqUID] and [scope=<scope>] as body; it answers one fetch and takes 31
    random draws. *)
Theorem getAccessToken_one_request this h st :
  exists req rqUID,
    requests (snd (getAccessToken this h st)) = requests st ++ [req]
    /\ fetched (snd (getAccessToken this h st)) = S (fetched st)
    /\ drawn (snd (getAccessToken this h st)) = drawn st + 31
    /\ url req = authUrl (settings this)
    /\ method req = "POST"
    /\ header "Content-Type" req = Some [Lit "application/x-www-form-urlencoded"]
    /\ header "Authorization" req = Some [Lit ("Basic " +:+ clientId (settings this))]
    /\ header "RqUID" req = Some [Lit rqUID]
    /\ isUuidV4 rqUID = true
    /\ length (headers req) = 3
    /\ body req = BodyText ("scope=" +:+ scope (settings this)).
Proof.
  destruct (getAccessToken_exact this h st) as (events & Hrun & _ & Hsent & _).
  cbv zeta in Hrun, Hsent.
  exists (tokenRequest (settings this) (uuidAt h (drawn st))), (uuidAt h (drawn st)).
  rewrite Hrun. unfold requests. simpl. rewrite sent_app, Hsent.
  repeat (split; [reflexivity|]). split; [apply uuidAt_shape|]. split; reflexivity.
Qed.

(** X3.  [getAccessToken] hands on the failure of the transport and the
    failure to parse the body as they are: when fetch rejects with an error,
    or the answer has a 2xx status and [response.json()] rejects with an
    error, the call throws that same error, and with logging on an error entry
    with its message is written. *)
Theorem getAccessToken_propagates this h st e :
  let answer := respond h (fetched st) (tokenRequest (settings this) (uuidAt h (drawn st))) in
  (answer = Rejected e
   \/ exists r, answer = Resolved r /\ ok r = true /\ json r = Throw e) ->
  fst (getAccessToken this h st) = Throw e
  /\ (logMessages (settings this) = true ->
      In (ConsoleLog error [Lit ("Ошибка получения access token: " +:+ message e)])
         (trace (snd (getAccessToken this h st)))).
Proof.
  cbv zeta. intros Hanswer.
  destruct (getAccessToken_exact this h st) as (events & Hrun & _ & _ & Herror).
  cbv zeta in Hrun, Herror.
  assert (Hresult : tokenResult (respond h (fetched st)
                                   (tokenRequest (settings this) (uuidAt h (drawn st)))) = Throw e).
  { destruct Hanswer as [->|(r & -> & Hok & Hjson)]; simpl; [reflexivity|].
    by rewrite Hok, Hjson. }
  rewrite Hrun, Hresult. split; [reflexivity|].
  intros Hlog. simpl. apply in_or_app. right. by apply Herror.
Qed.

Lemma getAccessToken_propagates_witness :
  fst (getAccessToken Mock.plugin
         (Mock.scripted (Rejected (TypeError "Failed to fetch")) Mock.generated) initial)
    = Throw (TypeError "Failed to fetch")
  /\ (logMessages (settings Mock.plugin) = true ->
      In (ConsoleLog error [Lit ("Ошибка получения access token: "
                                 +:+ message (TypeError "Failed to fetch"))])
         (trace (snd (getAccessToken Mock.plugin
                        (Mock.scripted (Rejected (TypeError "Failed to fetch")) Mock.generated)
                        initial)))).
Proof.
  apply (getAccessToken_propagates Mock.plugin
           (Mock.scripted (Rejected (TypeError "Failed to fetch")) Mock.generated) initial
           (TypeError "Failed to fetch")).
  left. reflexivity.
Defined.



(** X5.  What [getAccessToken] sends and returns is decided by [authUrl],
    [clientId] and [scope], by the answers and by the random draws: two plugin
    objects that agree on these three settings, run where as many fetches and
    draws were made, send the same request and end alike, whatever their API
    key, their other settings, their logging and the trace so far. *)
Theorem getAccessToken_depends_on this this' h st st' :
  authUrl (settings this) = authUrl (settings this') ->
  clientId (settings this) = clientId (settings this') ->
  scope (settings this) = scope (settings this') ->
  fetched st = fetched st' ->
  drawn st = drawn st' ->
  fst (getAccessToken this h st) = fst (getAccessToken this' h st')
  /\ exists req,
       requests (snd (getAccessToken this h st)) = requests st ++ [req]
       /\ requests (snd (getAccessToken this' h st')) = requests st' ++ [req].
Proof.
  intros Hurl Hid Hscope Hfetched Hdrawn.
  destruct (getAccessToken_exact this h st) as (events & Hrun & _ & Hsent & _).
  destruct (getAccessToken_exact this' h st') as (events' & Hrun' & _ & Hsent' & _).
  cbv zeta in Hrun, Hsent, Hrun', Hsent'.
  assert (Hreq : tokenRequest (settings this) (uuidAt h (drawn st))
                 = tokenRequest (settings this') (uuidAt h (drawn st'))).
  { unfold tokenRequest. by rewrite Hurl, Hid, Hscope, Hdrawn. }
  rewrite Hrun, Hrun', Hreq, Hfetched. split; [reflexivity|].
  exists (tokenRequest (settings this') (uuidAt h (drawn st'))).
  unfold requests. simpl. rewrite !sent_app, Hsent, Hsent', Hreq. auto.
Qed.

Lemma getAccessToken_depends_on_witness :
  let h := Mock.scripted Mock.tokenOk Mock.generated in
  fst (getAccessToken Mock.plugin h initial) = fst (getAccessToken MockMore.quietPlugin h initial)
  /\ exists req,
       requests (snd (getAccessToken Mock.plugin h initial)) = requests initial ++ [req]
       /\ requests (snd (getAccessToken MockMore.quietPlugin h initial)) = requests initial ++ [req].
Proof.
  cbv zeta. apply getAccessToken_depends_on; reflexivity.
Defined.

(** ** More on the completion client *)


(** X7.  The completion calls catch nothing: when fetch rejects with an
    error, or the answer has a 2xx status and [response.json()] rejects with an
    error, the call throws that same error. *)
Theorem completion_propagates this prompt context accessToken h st e :
  let failing (req : Request) :=
    respond h (fetched st) req = Rejected e
    \/ exists r, respond h (fetched st) req = Resolved r /\ ok r = true /\ json r = Throw e in
  (failing (plainRequest this prompt accessToken) ->
   fst (Modal.generateText this prompt accessToken h st) = Throw e)
  /\ (failing (contextRequest this prompt context accessToken) ->
      fst (Modal.generateTextWithContext this prompt context accessToken h st) = Throw e).
Proof.
  cbv zeta. split; intros Hanswer.
  - destruct (generateText_exact this prompt accessToken h st) as (events & Hrun & _).
    rewrite Hrun. destruct Hanswer as [->|(r & -> & Hok & Hjson)]; simpl; [reflexivity|].
    by rewrite Hok, Hjson.
  - destruct (generateTextWithContext_exact this prompt context accessToken h st)
      as (events & Hrun & _).
    rewrite Hrun. destruct Hanswer as [->|(r & -> & Hok & Hjson)]; simpl; [reflexivity|].
    by rewrite Hok, Hjson.
Qed.

Lemma completion_propagates_witness :
  let h := Mock.scripted (Rejected (TypeError "Failed to fetch"))
             (Resolved (Mock.respondWith 200 "OK" Mock.noJson)) in
  fst (Modal.generateText (Mock.modal EmptyString) "Hello" (JStr "T") h initial)
    = Throw (TypeError "Failed to fetch")
  /\ fst (Modal.generateTextWithContext (Mock.modal "some text") "Fix this" "some text" (JStr "T") h
            {| trace := []; fetched := 1; drawn := 0 |})
     = Throw (SyntaxError "Unexpected end of JSON input").
Proof.
  cbv zeta. split.
  - apply (proj1 (completion_propagates (Mock.modal EmptyString) "Hello" "some text" (JStr "T") _
                    initial (TypeError "Failed to fetch"))).
    left. reflexivity.
  - apply (proj2 (completion_propagates (Mock.modal "some text") "Fix this" "some text" (JStr "T") _
                    {| trace := []; fetched := 1; drawn := 0 |}
                    (SyntaxError "Unexpected end of JSON input"))).
    right. eexists. repeat split; reflexivity.
Defined.



(** ** The logger *)

Lemma no_log_in_requests (reqs : list Request) : existsb isLog (map Fetch reqs) = false.
Proof. induction reqs as [|req reqs IH]; [reflexivity|exact IH]. Qed.

(** X9.  With [logMessages] switched off the two user actions write nothing
    to the console or to the log panel: the events of [testConnection] are its
    requests and nothing else, and the events of the click handler of the
    modal hold no log entry. *)
Theorem logging_off_is_silent (this : Modal.TextGenerationModal) prompt h st :
  logMessages (settings (Modal.plugin this)) = false ->
  truthy_string (apiKey (Modal.settings this)) = true ->
  truthy_string prompt = true ->
  (exists events,
     trace (snd (testConnection (Modal.plugin this) h st)) = trace st ++ events
     /\ events = map Fetch (sent events))
  /\ (exists events,
        trace (snd (Modal.onGenerateClick this prompt h st)) = trace st ++ events
        /\ existsb isLog events = false).
Proof.
  intros Hoff Hkey Hprompt. split.
  - destruct (testConnection_exact (Modal.plugin this) h st)
      as (events & st' & Hrun & Htrace & Hlog & _).
    cbv zeta in Hrun. rewrite Hrun. exists events. split; [exact Htrace|].
    by apply (networkLog_silent (Modal.plugin this) h).
  - destruct (click_exact this prompt h st Hkey Hprompt)
      as (middle & later & st' & Hrun & Htrace & Hlog & _ & _ & Hlater).
    cbv zeta in Hlater. rewrite Hrun. eexists. split; [exact Htrace|].
    rewrite !existsb_app.
    rewrite (networkLog_silent _ _ _ Hoff Hlog), no_log_in_requests.
    destruct (generationOutcome _ _ _ _) as [generatedText|e].
    + subst later. reflexivity.
    + destruct Hlater as (s & ->). unfold logged. rewrite Hoff. reflexivity.
Qed.

Lemma logging_off_is_silent_witness :
  let this := {| Modal.settings := Mock.config; Modal.plugin := MockMore.quietPlugin;
                 Modal.initialText := EmptyString |} in
  let h := Mock.scripted Mock.tokenOk Mock.generated in
  (exists events,
     trace (snd (testConnection MockMore.quietPlugin h initial)) = trace initial ++ events
     /\ events = map Fetch (sent events))
  /\ (exists events,
        trace (snd (Modal.onGenerateClick this "Hello" h initial)) = trace initial ++ events
        /\ existsb isLog events = false).
Proof.
  cbv zeta.
  apply (logging_off_is_silent
           {| Modal.settings := Mock.config; Modal.plugin := MockMore.quietPlugin;
              Modal.initialText := EmptyString |} "Hello"
           (Mock.scripted Mock.tokenOk Mock.generated) initial); reflexivity.
Defined.

(** X10.  Once the settings tab is hidden the plugin has no log panel, and
    the two user actions write no entry to one: whatever the plugin, no event
    of [testConnection] or of the click handler run with the plugin as [hide]
    leaves it is an entry of the panel. *)
Theorem hidden_tab_gets_no_entries plugin config initialText prompt h st :
  truthy_string (apiKey config) = true ->
  truthy_string prompt = true ->
  let hidden := SettingTab.hide plugin in
  let this := {| Modal.settings := config; Modal.plugin := hidden;
                 Modal.initialText := initialText |} in
  (exists events,
     trace (snd (testConnection hidden h st)) = trace st ++ events
     /\ existsb isLogEntry events = false)
  /\ (exists events,
        trace (snd (Modal.onGenerateClick this prompt h st)) = trace st ++ events
        /\ existsb isLogEntry events = false).
Proof.
  intros Hkey Hprompt. cbv zeta. split.
  - destruct (testConnection_exact (SettingTab.hide plugin) h st)
      as (events & st' & Hrun & Htrace & Hlog & _).
    cbv zeta in Hrun. rewrite Hrun. exists events. split; [exact Htrace|].
    by apply (networkLog_console (SettingTab.hide plugin) h).
  - destruct (click_exact {| Modal.settings := config; Modal.plugin := SettingTab.hide plugin;
                             Modal.initialText := initialText |} prompt h st Hkey Hprompt)
      as (middle & later & st' & Hrun & Htrace & Hlog & _ & _ & Hlater).
    cbv zeta in Hlater. rewrite Hrun. eexists. split; [exact Htrace|].
    rewrite !existsb_app.
    rewrite (networkLog_console (SettingTab.hide plugin) h middle eq_refl Hlog).
    destruct (generationOutcome _ _ _ _) as [generatedText|e].
    + subst later. reflexivity.
    + destruct Hlater as (s & ->). unfold logged. simpl.
      by destruct (logMessages (settings plugin)).
Qed.


Lemma hidden_tab_gets_no_entries_witness :
  let hidden := SettingTab.hide Mock.plugin in
  let h := Mock.scripted Mock.unauthorized Mock.generated in
  (exists events,
     trace (snd (testConnection hidden h initial)) = trace initial ++ events
     /\ existsb isLogEntry events = false)
  /\ (exists events,
        trace (snd (Modal.onGenerateClick
                      {| Modal.settings := Mock.config; Modal.plugin := hidden;
                         Modal.initialText := "some text" |} "Fix this" h initial))
          = trace initial ++ events
        /\ existsb isLogEntry events = false).
Proof.
  cbv zeta.
  apply (hidden_tab_gets_no_entries Mock.plugin Mock.config "some text" "Fix this"
           (Mock.scripted Mock.unauthorized Mock.generated) initial); reflexivity.
Defined.

(** ** More on the click handler of the modal *)

(** X11.  The two gates of the click handler.  Without an API key in the
    settings of the modal the handler shows the notice that asks for one and
    does nothing else, whatever the prompt; with a key and an empty prompt it
    shows the notice that asks for a prompt and does nothing else.  In both
    cases nothing is sent, drawn or inserted and no widget is touched. *)
Theorem click_gates this prompt h st :
  (truthy_string (apiKey (Modal.settings this)) = false ->
   Modal.onGenerateClick this prompt h st
     = (Normal tt, after st [Notice "Пожалуйста, установите ваш GigaChat API ключ в настройках"]))
  /\ (truthy_string (apiKey (Modal.settings this)) = true ->
      truthy_string prompt = false ->
      Modal.onGenerateClick this prompt h st
        = (Normal tt, after st [Notice "Пожалуйста, введите запрос"]))
  /\ (truthy_string (apiKey (Modal.settings this)) && truthy_string prompt = false ->
      requests (snd (Modal.onGenerateClick this prompt h st)) = requests st
      /\ insertions (snd (Modal.onGenerateClick this prompt h st)) = insertions st
      /\ fetched (snd (Modal.onGenerateClick this prompt h st)) = fetched st
      /\ drawn (snd (Modal.onGenerateClick this prompt h st)) = drawn st).
Proof.
  unfold Modal.onGenerateClick. split; [|split].
  - intros ->. reflexivity.
  - intros -> ->. reflexivity.
  - destruct (truthy_string (apiKey (Modal.settings this))); simpl.
    + intros ->. simpl. unfold requests, insertions. simpl. tally. auto.
    + intros _. unfold requests, insertions. simpl. tally. auto.
Qed.

Lemma click_gates_witness :
  Modal.onGenerateClick
    {| Modal.settings := DEFAULT_SETTINGS; Modal.plugin := Mock.plugin;
       Modal.initialText := EmptyString |} "Hello"
    (Mock.scripted Mock.tokenOk Mock.generated) initial
    = (Normal tt, after initial [Notice "Пожалуйста, установите ваш GigaChat API ключ в настройках"])
  /\ Modal.onGenerateClick (Mock.modal "some text") EmptyString
       (Mock.scripted Mock.tokenOk Mock.generated) initial
     = (Normal tt, after initial [Notice "Пожалуйста, введите запрос"]).
Proof.
  split.
  - apply (proj1 (click_gates {| Modal.settings := DEFAULT_SETTINGS; Modal.plugin := Mock.plugin;
                                 Modal.initialText := EmptyString |} "Hello"
                    (Mock.scripted Mock.tokenOk Mock.generated) initial)).
    reflexivity.
  - apply (proj1 (proj2 (click_gates (Mock.modal "some text") EmptyString
                           (Mock.scripted Mock.tokenOk Mock.generated) initial))); reflexivity.
Defined.

(** X12.  Past its gates the click handler always ends the same way: it
    never throws, and whatever the two endpoints answer its last two events set
    the button back to its label and enable it.  In between it sends at most
    two requests and takes 31 random draws.  What happens in between follows
    the two calls: when [getAccessToken] returns a token and the completion
    call made with it returns a text, the events before the button is set
    back end with the insertion of that very text and the closing of the
    modal, and nothing before them touched the editor; when either call
    throws, none of the events touched the editor or closed the modal. *)
Theorem click_always_resets_button this prompt h st :
  truthy_string (apiKey (Modal.settings this)) = true ->
  truthy_string prompt = true ->
  exists events st',
    Modal.onGenerateClick this prompt h st = (Normal tt, st')
    /\ trace st' = trace st ++ busy ++ events
                     ++ [ButtonText "Сгенерировать"; ButtonDisabled false]
    /\ 1 <= length (sent events) <= 2
    /\ drawn st' = drawn st + 31
    /\ match getAccessToken (Modal.plugin this) h (after st busy) with
       | (Throw _, _) => editorUntouched events
       | (Normal accessToken, st2) =>
           match generation this prompt accessToken h st2 with
           | (Throw _, _) => editorUntouched events
           | (Normal generatedText, _) =>
               exists before,
                 events = before ++ [ReplaceRange generatedText; Close]
                 /\ editorUntouched before
           end
       end.
Proof.
  intros Hkey Hprompt.
  destruct (click_exact this prompt h st Hkey Hprompt)
    as (middle & later & st' & Hrun & Htrace & Hlog & Hsent & Hdrawn & Hlater).
  cbv zeta in Hsent, Hlater.
  exists (middle ++ later), st'. split; [exact Hrun|].
  split; [by rewrite Htrace, <- !app_assoc|].
  assert (Hquiet : sent later = []).
  { destruct (generationOutcome _ _ _ _) as [generatedText|e].
    - by subst later.
    - destruct Hlater as (s & ->). tally. reflexivity. }
  split.
  { rewrite sent_app, Hsent, Hquiet, app_nil_r.
    destruct (tokenResult _); simpl; lia. }
  split; [exact Hdrawn|].
  assert (Hfailed : forall e,
            (exists s,
               later = [StatusText ("Ошибка: " +:+ message e); StatusStyle Modal.statusFailed]
                       ++ logged (Modal.plugin this) [Lit ("Ошибка генерации: " +:+ message e)]
                            error h s) ->
            editorUntouched (middle ++ later)).
  { intros e (s & ->).
    apply untouched_app; [by apply (networkLog_untouched (Modal.plugin this) h)|].
    apply (untouched_app [_; _]); [reflexivity|]. apply untouched_quiet, quiet_logged. }
  destruct (getAccessToken_exact (Modal.plugin this) h (after st busy))
    as (events1 & Hrun1 & _).
  cbv zeta in Hrun1. rewrite fetched_after in Hrun1.
  change (drawn (after st busy)) with (drawn st) in Hrun1.
  rewrite Hrun1. clear Hrun1. unfold generationOutcome in Hlater.
  destruct (tokenResult _) as [accessToken|e]; [|by apply (Hfailed e)].
  match goal with |- context [generation this prompt accessToken h ?s] =>
    destruct (generation_exact this prompt accessToken h s) as (events2 & Hrun2 & _)
  end.
  rewrite Hrun2. clear Hrun2. cbn [fetched].
  destruct (completionResult _) as [generatedText|e]; [|by apply (Hfailed e)].
  subst later. exists middle. split; [reflexivity|].
  by apply (networkLog_untouched (Modal.plugin this) h).
Qed.

Lemma click_always_resets_button_witness :
  (exists before st',
     Modal.onGenerateClick (Mock.modal "some text") "Fix this"
       (Mock.scripted Mock.tokenOk Mock.generated) initial = (Normal tt, st')
     /\ trace st' = trace initial ++ busy ++ (before ++ [ReplaceRange (JStr "Generated"); Close])
                      ++ [ButtonText "Сгенерировать"; ButtonDisabled false]
     /\ editorUntouched before)
  /\ (exists events st',
        Modal.onGenerateClick (Mock.modal "some text") "Fix this"
          (Mock.scripted Mock.tokenOk Mock.serverError) initial = (Normal tt, st')
        /\ trace st' = trace initial ++ busy ++ events
                         ++ [ButtonText "Сгенерировать"; ButtonDisabled false]
        /\ editorUntouched events).
Proof.
  split.
  - destruct (click_always_resets_button (Mock.modal "some text") "Fix this"
                (Mock.scripted Mock.tokenOk Mock.generated) initial eq_refl eq_refl)
      as (events & st' & Hrun & Htrace & _ & _ & Htie).
    assert (Hcalls :
              match getAccessToken (Modal.plugin (Mock.modal "some text"))
                      (Mock.scripted Mock.tokenOk Mock.generated) (after initial busy) with
              | (Throw _, _) => False
              | (Normal accessToken, st2) =>
                  fst (generation (Mock.modal "some text") "Fix this" accessToken
                         (Mock.scripted Mock.tokenOk Mock.generated) st2)
                  = Normal (JStr "Generated")
              end).
    { vm_compute. reflexivity. }
    destruct (getAccessToken _ _ _) as [[accessToken|e] st2]; [|contradiction].
    destruct (generation _ _ _ _ _) as [[generatedText|e] st3]; [|discriminate].
    injection Hcalls as ->. destruct Htie as (before & -> & Hbefore).
    exists before, st'. split; [exact Hrun|]. split; [exact Htrace|exact Hbefore].
  - destruct (click_always_resets_button (Mock.modal "some text") "Fix this"
                (Mock.scripted Mock.tokenOk Mock.serverError) initial eq_refl eq_refl)
      as (events & st' & Hrun & Htrace & _ & _ & Htie).
    assert (Hcalls :
              match getAccessToken (Modal.plugin (Mock.modal "some text"))
                      (Mock.scripted Mock.tokenOk Mock.serverError) (after initial busy) with
              | (Throw _, _) => False
              | (Normal accessToken, st2) =>
                  fst (generation (Mock.modal "some text") "Fix this" accessToken
                         (Mock.scripted Mock.tokenOk Mock.serverError) st2)
                  = Throw (Error "API error: 500 Internal Server Error")
              end).
    { vm_compute. reflexivity. }
    destruct (getAccessToken _ _ _) as [[accessToken|e] st2]; [|contradiction].
    destruct (generation _ _ _ _ _) as [[generatedText|e] st3]; [discriminate|].
    exists events, st'. split; [exact Hrun|]. split; [exact Htrace|exact Htie].
Defined.

(** X13.  The API key is a gate and nothing more.  Take a plugin and the
    modal a command opens for it, which shares the settings of the plugin;
    change the API key in these settings, from one non-empty key to another:
    the click handler runs alike to the last event, so the key is in no
    request and in no log entry. *)
Theorem click_ignores_api_key config key key' panel selection prompt h st :
  truthy_string key = true ->
  truthy_string key' = true ->
  let withKey k :=
    {| apiKey := k; apiUrl := apiUrl config; authUrl := authUrl config;
       clientId := clientId config; scope := scope config; model := model config;
       temperature := temperature config; maxTokens := maxTokens config;
       logMessages := logMessages config |} in
  let opened k :=
    Commands.newModal (withKey k) {| settings := withKey k; logContainer := panel |} selection in
  Modal.onGenerateClick (opened key) prompt h st
    = Modal.onGenerateClick (opened key') prompt h st.
Proof.
  intros Hkey Hkey'. cbv zeta. unfold Modal.onGenerateClick. simpl.
  rewrite Hkey, Hkey'. destruct (truthy_string prompt); [|reflexivity]. simpl.
  unfold Modal.generateAndInsert, getAccessToken, Modal.generateText,
    Modal.generateTextWithContext, logMessage, tokenRequest. simpl.
  reflexivity.
Qed.

Lemma click_ignores_api_key_witness :
  let withKey k :=
    {| apiKey := k; apiUrl := apiUrl Mock.config; authUrl := authUrl Mock.config;
       clientId := clientId Mock.config; scope := scope Mock.config; model := model Mock.config;
       temperature := temperature Mock.config; maxTokens := maxTokens Mock.config;
       logMessages := logMessages Mock.config |} in
  let opened k :=
    Commands.newModal (withKey k) {| settings := withKey k; logContainer := true |}
      (Some "some text") in
  Modal.onGenerateClick (opened "key") "Fix this" (Mock.scripted Mock.tokenOk Mock.generated) initial
  = Modal.onGenerateClick (opened "another") "Fix this"
      (Mock.scripted Mock.tokenOk Mock.generated) initial.
Proof.
  cbv zeta.
  apply (click_ignores_api_key Mock.config "key" "another" true (Some "some text") "Fix this"
           (Mock.scripted Mock.tokenOk Mock.generated) initial); reflexivity.
Defined.

(** The requests of the click handler past its gates. *)
Lemma click_requests this prompt h st :
  truthy_string (apiKey (Modal.settings this)) = true ->
  truthy_string prompt = true ->
  requests (snd (Modal.onGenerateClick this prompt h st)) =
    requests st ++
      tokenRequest (settings (Modal.plugin this)) (uuidAt h (drawn st)) ::
      match tokenResult (respond h (fetched st)
                           (tokenRequest (settings (Modal.plugin this)) (uuidAt h (drawn st)))) with
      | Normal accessToken => [generationRequest this prompt accessToken]
      | Throw _ => []
      end.
Proof.
  intros Hkey Hprompt.
  destruct (click_exact this prompt h st Hkey Hprompt)
    as (middle & later & st' & Hrun & Htrace & Hlog & Hsent & Hdrawn & Hlater).
  cbv zeta in Hsent, Hlater. rewrite Hrun. unfold requests. simpl. rewrite Htrace.
  assert (Hquiet : sent later = []).
  { destruct (generationOutcome _ _ _ _) as [generatedText|e].
    - by subst later.
    - destruct Hlater as (s & ->). tally. reflexivity. }
  rewrite !sent_app, Hsent, Hquiet. simpl. by rewrite app_nil_r.
Qed.

Lemma append_cons c s t : String c s +:+ t = String c (s +:+ t).
Proof. reflexivity. Qed.

Lemma append_assoc (s t u : string) : (s +:+ t) +:+ u = s +:+ t +:+ u.
Proof.
  induction s as [|c s IH]; [reflexivity|].
  by rewrite !append_cons, IH.
Qed.

(** ** The commands and the quick commands *)



(** X15.  The quick commands exist only in a modal opened on a selection.
    Pressing one fills the prompt with the text of the command, two newlines
    and the selection; this prompt is never empty, so it passes the gate of
    the click handler, and the message then sent holds the selection twice:
    once in the prompt and once more as the context. *)
Theorem quick_command_repeats_selection this command accessToken :
  (truthy_string (Modal.initialText this) = false -> Commands.quickCommands this = [])
  /\ (In command (Commands.quickCommands this) ->
      let prompt := Commands.quickCommandClick this command in
      truthy_string (Modal.initialText this) = true
      /\ truthy_string prompt = true
      /\ messageContents (generationRequest this prompt accessToken)
         = Some [JStr (Commands.prompt command +:+ String "010" (String "010"
                         (Modal.initialText this +:+ String "010" (String "010" ("Контекст:" +:+
                            String "010" (String "034"
                              (Modal.initialText this +:+ String "034" EmptyString)))))))]).
Proof.
  unfold Commands.quickCommands. split.
  - intros ->. reflexivity.
  - destruct (truthy_string (Modal.initialText this)) eqn:Hselection; [|intros []].
    intros Hcommand. cbv zeta. split; [reflexivity|]. split.
    + unfold Commands.quickCommandClick.
      simpl in Hcommand. destruct Hcommand as [<-|[<-|[<-|[<-|[]]]]]; reflexivity.
    + unfold generationRequest. rewrite Hselection.
      unfold contextRequest, plainRequest. rewrite messageContents_completion.
      unfold Commands.quickCommandClick, Modal.contextSeparator, newline, dquote.
      rewrite !append_assoc. reflexivity.
Qed.

Lemma quick_command_repeats_selection_witness :
  let this := Mock.modal "some text" in
  let command := {| Commands.text := "📝 Улучшить";
                    Commands.prompt := "Улучши этот текст, сохраняя смысл:" |} in
  let prompt := Commands.quickCommandClick this command in
  truthy_string (Modal.initialText this) = true
  /\ truthy_string prompt = true
  /\ messageContents (generationRequest this prompt (JStr "T"))
     = Some [JStr (Commands.prompt command +:+ String "010" (String "010"
                     (Modal.initialText this +:+ String "010" (String "010" ("Контекст:" +:+
                        String "010" (String "034"
                          (Modal.initialText this +:+ String "034" EmptyString)))))))].
Proof.
  cbv zeta.
  apply (proj2 (quick_command_repeats_selection (Mock.modal "some text")
                  {| Commands.text := "📝 Улучшить";
                     Commands.prompt := "Улучши этот текст, сохраняя смысл:" |} (JStr "T"))).
  left. reflexivity.
Defined.

(** ** The settings tab *)

(** X16.  A change made in the settings tab is saved at once and survives a
    reload.  After an [onChange] handler has set a key, the data the host
    holds is the settings object; loading gives the key the new value and
    every other key the value it had, or its default if it had none; and on
    settings that were loaded before, changing and loading again gives just
    the settings with the one key changed. *)
Theorem change_survives_reload key value st :
  let changed := SettingTab.change key value st in
  Storage.data changed = JObj (Storage.settings changed)
  /\ Storage.settings (Storage.loadSettings changed) !! key = Some value
  /\ (forall k,
        k <> key ->
        Storage.settings (Storage.loadSettings changed) !! k
        = match Storage.settings st !! k with
          | Some v => Some v
          | None => Storage.settingsObject DEFAULT_SETTINGS !! k
          end)
  /\ (let loaded := Storage.loadSettings st in
      Storage.settings (Storage.loadSettings (SettingTab.change key value loaded))
      = <[key := value]> (Storage.settings loaded)).
Proof.
  cbv zeta. unfold SettingTab.change, Storage.saveSettings, Storage.saveData.
  split; [reflexivity|]. split; [|split].
  - rewrite loadSettings_lookup. simpl. by rewrite lookup_insert_eq.
  - intros k Hk. rewrite loadSettings_lookup. simpl. by rewrite lookup_insert_ne.
  - apply map_eq. intros k. rewrite loadSettings_lookup. simpl.
    destruct (decide (key = k)) as [->|Hk].
    + by rewrite !lookup_insert_eq.
    + rewrite !lookup_insert_ne by done.
      rewrite !assign_source, lookup_union, lookup_union, lookup_empty.
      destruct (Storage.ownEnumerable (Storage.loadData st) !! k);
        by destruct (Storage.settingsObject DEFAULT_SETTINGS !! k).
Qed.

Lemma change_survives_reload_witness :
  let st := {| Storage.settings := Storage.settingsObject DEFAULT_SETTINGS;
               Storage.data := JNull |} in
  let changed := SettingTab.onChange_apiKey "key" st in
  Storage.settings (Storage.loadSettings changed) !! "apiKey" = Some (JStr "key")
  /\ Storage.settings (Storage.loadSettings changed) !! "model" = Some (JStr "GigaChat").
Proof.
  cbv zeta. split.
  - apply (proj1 (proj2 (change_survives_reload "apiKey" (JStr "key")
                           {| Storage.settings := Storage.settingsObject DEFAULT_SETTINGS;
                              Storage.data := JNull |}))).
  - exact (eq_trans
             (proj1 (proj2 (proj2 (change_survives_reload "apiKey" (JStr "key")
                                     {| Storage.settings := Storage.settingsObject DEFAULT_SETTINGS;
                                        Storage.data := JNull |})))
                    "model" ltac:(discriminate))
             eq_refl).
Defined.

(** X17.  Whatever the host holds for the plugin, every setting is there
    after [loadSettings]; when it holds no object (undefined, null, a boolean
    or a number) the settings are the defaults; and loading never changes what
    the host holds. *)
Theorem loadSettings_always_populated st :
  dom (Storage.settingsObject DEFAULT_SETTINGS) ⊆ dom (Storage.settings (Storage.loadSettings st))
  /\ match Storage.data st with
     | JUndefined | JNull | JBool _ | JNum _ =>
         Storage.settings (Storage.loadSettings st) = Storage.settingsObject DEFAULT_SETTINGS
     | JStr _ | JArr _ | JObj _ => True
     end
  /\ Storage.data (Storage.loadSettings st) = Storage.data st.
Proof.
  unfold Storage.loadSettings, Storage.Object_assign, Storage.loadData. simpl.
  rewrite !assign_source, (right_id_L ∅ (∪)). split; [|split; [|reflexivity]].
  - intros k Hk. apply elem_of_dom. rewrite lookup_union.
    apply elem_of_dom in Hk as [v ->].
    by destruct (Storage.ownEnumerable (Storage.data st) !! k).
  - destruct (Storage.data st); simpl; try exact I; by rewrite (left_id_L ∅ (∪)).
Qed.

(** X18.  The button that tests the connection: its handler never throws;
    it disables the button, runs [testConnection], sets the button back and
    enables it, and then shows the notice of success exactly when
    [testConnection] returned true, the notice of failure otherwise. *)
Theorem test_button_reports plugin h st :
  let started := after st [ButtonText "Тестирование..."; ButtonDisabled true] in
  exists success st1,
    testConnection plugin h started = (Normal success, st1)
    /\ SettingTab.onTestClick plugin h st =
         (Normal tt,
          after st1 [ButtonText "Тестировать подключение"; ButtonDisabled false;
                     Notice (if success
                             then "✅ Тестирование подключения прошло успешно!"
                             else "❌ Тестирование подключения не удалось! Проверьте логи для деталей.")]).
Proof.
  cbv zeta.
  destruct (testConnection_exact plugin h
              (after st [ButtonText "Тестирование..."; ButtonDisabled true]))
    as (events & st1 & Hrun & _).
  cbv zeta in Hrun. eexists _, st1. split; [exact Hrun|].
  unfold SettingTab.onTestClick. do 2 step. rewrite after_after.
  change ([ButtonText "Тестирование..."] ++ [ButtonDisabled true])
    with [ButtonText "Тестирование..."; ButtonDisabled true].
  rewrite run_bind, Hrun. cbv beta iota. do 2 step. rewrite after_after.
  match goal with |- context [if ?b then _ else _] => destruct b end;
    rewrite run_emit, after_after; reflexivity.
Qed.

(** X19.  No token is kept from one action to the next: a second click on
    the generate button sends a token request of its own, before anything
    else, under an identifier made from the 31 random draws that follow those
    of the first click. *)
Theorem every_click_fetches_a_token this prompt h st :
  truthy_string (apiKey (Modal.settings this)) = true ->
  truthy_string prompt = true ->
  let first := Modal.onGenerateClick this prompt h st in
  let second := Modal.onGenerateClick this prompt h (snd first) in
  exists rest rest',
    requests (snd first)
      = requests st ++ tokenRequest (settings (Modal.plugin this)) (uuidAt h (drawn st)) :: rest
    /\ requests (snd second)
       = requests (snd first)
           ++ tokenRequest (settings (Modal.plugin this)) (uuidAt h (drawn st + 31)) :: rest'
    /\ length rest <= 1 /\ length rest' <= 1.
Proof.
  intros Hkey Hprompt. cbv zeta.
  assert (Hdrawn : drawn (snd (Modal.onGenerateClick this prompt h st)) = drawn st + 31).
  { destruct (click_exact this prompt h st Hkey Hprompt)
      as (middle & later & st' & Hrun & _ & _ & _ & Hdrawn & _).
    by rewrite Hrun. }
  rewrite (click_requests this prompt h (snd (Modal.onGenerateClick this prompt h st)))
    by assumption.
  rewrite (click_requests this prompt h st) by assumption.
  rewrite Hdrawn. eexists _, _. split; [reflexivity|]. split; [reflexivity|].
  split; destruct (tokenResult _); simpl; lia.
Qed.

Lemma every_click_fetches_a_token_witness :
  let h := Mock.scripted Mock.tokenOk Mock.generated in
  let first := Modal.onGenerateClick (Mock.modal EmptyString) "Hello" h initial in
  let second := Modal.onGenerateClick (Mock.modal EmptyString) "Hello" h (snd first) in
  exists rest rest',
    requests (snd first)
      = requests initial ++ tokenRequest (settings Mock.plugin) (uuidAt h (drawn initial)) :: rest
    /\ requests (snd second)
       = requests (snd first)
           ++ tokenRequest (settings Mock.plugin) (uuidAt h (drawn initial + 31)) :: rest'
    /\ length rest <= 1 /\ length rest' <= 1.
Proof.
  cbv zeta.
  apply (every_click_fetches_a_token (Mock.modal EmptyString) "Hello"
           (Mock.scripted Mock.tokenOk Mock.generated) initial); reflexivity.
Defined.
